(** * RpcProvider (src/provider/rpc.ts): dispatcher and confirmation poller

    A shallow embedding of the parts of [RpcProvider] that carry control
    flow: [fetch], [errorHandler], [fetchEndpoint], [getTransactionReceipt],
    [getBlockWithTxHashes], the constructor's [retries] default and the
    [waitForTransaction] loop; and of the endpoint methods built on them.

    JavaScript values are a small inductive type; asynchronous code is
    sequential here (every [await] is a bind of a state-and-exception
    monad); the outside world is a log of the suspensions and HTTP
    exchanges performed so far, and the node is an oracle answering the
    n-th exchange. *)

From Stdlib Require Import ZArith List String Ascii Bool Lia DecimalString.
Import ListNotations.
Local Open Scope string_scope.
Local Open Scope Z_scope.

(** ** JavaScript values *)

Module JS.

(** Numbers are the integers ([NaN], fractions and infinities are not
    represented).  [VError name message props] is an instance of [Error]
    (or of a subclass called [name]) with further own properties [props].
    An object is the list of its own properties, first binding wins. *)
#[warnings="-register-all"]
Inductive value : Type :=
| VUndefined
| VNull
| VBool (b : bool)
| VNum (n : Z)
| VStr (s : string)
| VArr (items : list value)
| VObj (props : list (string * value))
| VError (name message : string) (props : list (string * value)).

Definition props_t : Type := list (string * value).

Fixpoint lookup (k : string) (ps : props_t) : option value :=
  match ps with
  | [] => None
  | (k', v) :: rest => if String.eqb k k' then Some v else lookup k rest
  end.

Definition or_undefined (o : option value) : value :=
  match o with Some v => v | None => VUndefined end.

(** [v.k] for a [v] that is neither [null] nor [undefined].  The keys read
    by rpc.ts ([error], [result], [code], [message], [response], [data],
    [status]) are not properties of strings, numbers, booleans or arrays. *)
Definition get (v : value) (k : string) : value :=
  match v with
  | VObj ps => or_undefined (lookup k ps)
  | VError name message ps =>
      if String.eqb k "message" then VStr message
      else if String.eqb k "name" then VStr name
      else or_undefined (lookup k ps)
  | _ => VUndefined
  end.

Definition nullish (v : value) : bool :=
  match v with VUndefined | VNull => true | _ => false end.

(** [v?.k] *)
Definition get_opt (v : value) (k : string) : value :=
  if nullish v then VUndefined else get v k.

(** ToBoolean *)
Definition truthy (v : value) : bool :=
  match v with
  | VUndefined | VNull => false
  | VBool b => b
  | VNum n => negb (n =? 0)
  | VStr s => negb (String.eqb s "")
  | VArr _ | VObj _ | VError _ _ _ => true
  end.

Definition string_of_Z (n : Z) : string := NilZero.string_of_int (Z.to_int n).

(** ToString, as a template literal applies it. *)
Fixpoint toString (v : value) : string :=
  match v with
  | VUndefined => "undefined"
  | VNull => "null"
  | VBool true => "true"
  | VBool false => "false"
  | VNum n => string_of_Z n
  | VStr s => s
  | VArr items =>
      (fix join (l : list value) : string :=
         let elem (x : value) : string :=
           match x with VUndefined | VNull => "" | _ => toString x end in
         match l with
         | [] => ""
         | [x] => elem x
         | x :: rest => elem x ++ "," ++ join rest
         end) items
  | VObj _ => "[object Object]"
  | VError name message _ =>
      if String.eqb name "" then message
      else if String.eqb message "" then name
      else name ++ ": " ++ message
  end.

(** [error instanceof Error] *)
Definition instanceofError (v : value) : bool :=
  match v with VError _ _ _ => true | _ => false end.

(** [new Error(message)] *)
Definition newError (message : string) : value := VError "Error" message [].

(** [Array.prototype.includes] on an array of string literals: strict
    equality, so only a string can be found. *)
Definition includes (l : list string) (v : value) : bool :=
  match v with
  | VStr s => existsb (String.eqb s) l
  | _ => false
  end.

End JS.
Import JS.

(** ** Effects: the log of the world, exceptions *)

Record request : Type := mkRequest {
  req_url : string;
  req_method : string;
  req_body : string;
  req_headers : list (string * string)
}.

Inductive event : Type :=
| Slept (ms : Z)
| Exchanged (r : request).

(** Oldest event first. *)
Definition world : Type := list event.
Bind Scope list_scope with world.

Definition is_exchange (e : event) : bool :=
  match e with Exchanged _ => true | Slept _ => false end.

Definition is_sleep (e : event) : bool :=
  match e with Slept _ => true | Exchanged _ => false end.

Definition exchanges (w : world) : nat := List.length (filter is_exchange w).
Definition sleeps (w : world) : nat := List.length (filter is_sleep w).

Inductive completion (A : Type) : Type :=
| Normal (a : A)
| Throw (e : value).
Arguments Normal {A} a.
Arguments Throw {A} e.

Definition M (A : Type) : Type := world -> completion A * world.

Definition ret {A} (a : A) : M A := fun w => (Normal a, w).
Definition throw {A} (e : value) : M A := fun w => (Throw e, w).

Definition bind {A B} (m : M A) (k : A -> M B) : M B :=
  fun w =>
    match m w with
    | (Normal a, w') => k a w'
    | (Throw e, w') => (Throw e, w')
    end.

Definition try_catch {A} (m : M A) (handler : value -> M A) : M A :=
  fun w =>
    match m w with
    | (Normal a, w') => (Normal a, w')
    | (Throw e, w') => handler e w'
    end.

Definition lift {A} (c : completion A) : M A := fun w => (c, w).

Notation "x <- m ;; k" := (bind m (fun x => k))
  (at level 61, m at next level, right associativity).
Notation "m ;;; k" := (bind m (fun _ => k))
  (at level 61, right associativity).

(** What the node's side of one exchange can do: the request promise rejects
    with [e]; it resolves but [json()] rejects with [e]; [json()] resolves to
    the decoded body. *)
Inductive exchange : Type :=
| NetFail (e : value)
| BodyFail (e : value)
| Body (v : value).

Inductive response : Type :=
| JsonRejects (e : value)
| JsonResolves (v : value).

(** ** The provider *)

Record RpcProviderOptions : Type := mkOptions {
  opt_nodeUrl : string;
  opt_retries : option Z
}.

Record RpcProvider : Type := mkProvider {
  nodeUrl : string;
  retries : Z
}.

(** [retries || 200]; the unawaited [getChainId] of the constructor only
    sets [chainId], which nothing below reads. *)
Definition constructor (optionsOrProvider : RpcProviderOptions) : RpcProvider :=
  {| nodeUrl := opt_nodeUrl optionsOrProvider;
     retries := match opt_retries optionsOrProvider with
                | Some r => if truthy (VNum r) then r else 200
                | None => 200
                end |}.

(** ** Scenarios

    Concrete nodes, parsers and providers on which the statements below are
    run.  [plain_stringify] and [keep] stand in for the two imported helpers;
    no statement depends on which serialiser is used. *)

Definition plain_stringify : value -> string := toString.

Definition keep (res : value) : completion value := Normal res.

Definition receipt (status : string) : value :=
  VObj [("transaction_hash", VStr "0x1"); ("status", VStr status)].

Definition reply (result : value) : exchange := Body (VObj [("result", result)]).

Definition always (status : string) : nat -> request -> exchange :=
  fun _ _ => reply (receipt status).

Definition rejected_second : nat -> request -> exchange :=
  fun n _ =>
    match n with
    | O => reply (receipt "RECEIVED")
    | S _ => reply (receipt "REJECTED")
    end.

Definition refused : value := VError "FetchError" "connect ECONNREFUSED" [].

Definition unreachable : nat -> request -> exchange := fun _ _ => NetFail refused.

Definition gateway_failure : value :=
  VError "Error" "Request failed with status code 502"
    [("response",
      VObj [("data", VObj [("code", VNum 502); ("message", VStr "Bad Gateway")])])].

Definition behind_gateway : nat -> request -> exchange :=
  fun _ _ => NetFail gateway_failure.

Definition node_says (code : Z) (message : string) : nat -> request -> exchange :=
  fun _ _ =>
    Body (VObj [("error", VObj [("code", VNum code); ("message", VStr message)])]).

Definition provider_with (budget : Z) : RpcProvider :=
  {| nodeUrl := "http://localhost:9545"; retries := budget |}.

Definition null_results : nat -> request -> exchange := fun _ _ => reply VNull.

Definition null_bodies : nat -> request -> exchange := fun _ _ => Body VNull.

Definition named_not_received : value := VError "Error" "NOT_RECEIVED" [].

Definition fails_with_status_name : nat -> request -> exchange :=
  fun n _ =>
    match n with
    | O => reply (receipt "RECEIVED")
    | S _ => NetFail named_not_received
    end.

Definition html_page : value := VStr "<html>502 Bad Gateway</html>".

Definition html_failure : value :=
  VError "Error" "Request failed with status code 502"
    [("response", VObj [("data", html_page)])].

Definition behind_html_gateway : nat -> request -> exchange :=
  fun _ _ => NetFail html_failure.

Definition as_is (v : value) : completion value := Normal v.

Definition fixed_address : world -> value := fun _ => VStr "0x5eed".

Definition transfer : value :=
  VObj [("contractAddress", VStr "0x1"); ("entrypoint", VStr "transfer");
        ("calldata", VArr [VStr "0x2"; VNum 10])].

Definition contract_text : value :=
  VObj [("program", VStr "0xc0de"); ("entry_points_by_type", VObj []);
        ("abi", VArr [])].

Definition deploy_payload : value :=
  VObj [("contract", contract_text); ("addressSalt", VNum 0)].

Section Provider.

(** [stringify] of utils/json and the receipt parser of
    utils/responseParser/rpc are imported by rpc.ts; their code is not part
    of this file.  [node n r] is the node's behaviour on the exchange number
    [n] (counted from 0) when sent [r]. *)
Variable stringify : value -> string.
Variable parseGetTransactionReceiptResponse : value -> completion value.
Variable node : nat -> request -> exchange.
Variable this : RpcProvider.

(** The ponyfilled [fetch(url, init)]: one exchange, logged. *)
Definition http (r : request) : M response :=
  fun w =>
    let w' := (w ++ [Exchanged r])%list in
    match node (exchanges w) r with
    | NetFail e => (Throw e, w')
    | BodyFail e => (Normal (JsonRejects e), w')
    | Body v => (Normal (JsonResolves v), w')
    end.

Definition envelope (method params : value) : value :=
  VObj [("method", method); ("jsonrpc", VStr "2.0"); ("params", params);
        ("id", VNum 0)].

Definition build_request (method params : value) : request :=
  {| req_url := nodeUrl this;
     req_method := "POST";
     req_body := stringify (envelope method params);
     req_headers := [("Content-Type", "application/json")] |}.

Definition fetch (method params : value) : M response :=
  http (build_request method params).

Definition json (rawResult : response) : M value :=
  match rawResult with
  | JsonRejects e => throw e
  | JsonResolves v => ret v
  end.

Definition typeError (message : string) : value := VError "TypeError" message [].

(** [const { error, result } = v] *)
Definition destructure_error_result (v : value) : M (value * value) :=
  if nullish v
  then throw (typeError "Cannot destructure property 'error' of nullish value")
  else ret (get v "error", get v "result").

Definition errorHandler (error : value) : M unit :=
  if truthy error then
    let code := get error "code" in
    let message := get error "message" in
    throw (newError (toString code ++ ": " ++ toString message))
  else ret tt.

Definition fetchEndpoint (method : string) (params : value) : M value :=
  try_catch
    (rawResult <- fetch (VStr method) params ;;
     er <- (v <- json rawResult ;; destructure_error_result v) ;;
     errorHandler (fst er) ;;;
     ret (snd er))
    (fun error =>
       errorHandler (get_opt (get_opt error "response") "data") ;;;
       throw error).

(** [wait] of utils/provider: a timer of [delay] milliseconds. *)
Definition wait (delay : Z) : M unit :=
  fun w => (Normal tt, (w ++ [Slept delay])%list).

Definition getTransactionReceipt (txHash : string) : M value :=
  res <- fetchEndpoint "starknet_getTransactionReceipt"
           (VObj [("transaction_hash", VStr txHash)]) ;;
  lift (parseGetTransactionReceiptResponse res).

Definition successStates : list string :=
  ["ACCEPTED_ON_L1"; "ACCEPTED_ON_L2"; "PENDING"].
Definition errorStates : list string := ["REJECTED"; "NOT_RECEIVED"].

(** [res.status] *)
Definition status_of (res : value) : M value :=
  if nullish res
  then throw (typeError "Cannot read properties of nullish value (reading 'status')")
  else ret (get res "status").

(** The two variables of [waitForTransaction]. *)
Record locals : Type := mkLocals {
  l_retries : Z;
  l_onchain : bool
}.

Definition timedout : value := newError "waitForTransaction timedout with retries".

(** One pass through the body of [while (!onchain)]. *)
Definition loop_body (txHash : string) (retryInterval : Z) (l : locals) : M locals :=
  wait retryInterval ;;;
  onchain <-
    try_catch
      (res <- getTransactionReceipt txHash ;;
       status <- status_of res ;;
       if includes successStates status then ret true
       else if includes errorStates status then
         let message := status in
         throw (VError "Error" (toString message) [("response", res)])
       else ret (l_onchain l))
      (fun error =>
         if instanceofError error && includes errorStates (get error "message")
         then throw error
         else if l_retries l =? 0 then throw timedout
         else ret (l_onchain l)) ;;
  ret {| l_retries := l_retries l - 1; l_onchain := onchain |}.

Inductive loop_exit : Type :=
| Spinning
| Exited
| Raised (e : value).

(** The loop, cut after [fuel] passes: [Spinning] says that the condition
    still held when the fuel ran out. *)
Fixpoint while_not_onchain (fuel : nat) (txHash : string) (retryInterval : Z)
    (l : locals) (w : world) : loop_exit * locals * world :=
  if l_onchain l then (Exited, l, w)
  else
    match fuel with
    | O => (Spinning, l, w)
    | S fuel' =>
        match loop_body txHash retryInterval l w with
        | (Normal l', w') => while_not_onchain fuel' txHash retryInterval l' w'
        | (Throw e, w') => (Raised e, l, w')
        end
    end.

Inductive run : Type :=
| Running
| Returned (v : value)
| Threw (e : value).

Record session : Type := mkSession {
  outcome : run;
  vars : locals;
  after : world
}.

(** [retryInterval: number = 8000] *)
Definition interval_of (retryInterval : option Z) : Z :=
  match retryInterval with Some ms => ms | None => 8000 end.

Definition waitForTransaction (fuel : nat) (txHash : string)
    (retryInterval : option Z) (w : world) : session :=
  let retryInterval := interval_of retryInterval in
  let l0 := {| l_retries := retries this; l_onchain := false |} in
  match while_not_onchain fuel txHash retryInterval l0 w with
  | (Spinning, l, w') => {| outcome := Running; vars := l; after := w' |}
  | (Raised e, l, w') => {| outcome := Threw e; vars := l; after := w' |}
  | (Exited, l, w') =>
      {| outcome := Returned VUndefined; vars := l;
         after := snd (wait retryInterval w') |}
  end.

(** *** Block references *)

Inductive BlockTag : Type := latest | pending.

Inductive BlockReference : Type :=
| Tag (t : BlockTag)
| Height (n : N)
| Hash (h : string).

Definition tag_string (t : BlockTag) : string :=
  match t with latest => "latest" | pending => "pending" end.

(** Modelled from the spec: the class [Block] of provider/utils and its
    [identifier] getter, which rpc.ts imports; section 4.1 of the
    specification gives the wire value of each variant. *)
Definition resolve (ref : BlockReference) : value :=
  match ref with
  | Tag t => VStr (tag_string t)
  | Height n => VObj [("block_number", VNum (Z.of_N n))]
  | Hash h => VObj [("block_hash", VStr h)]
  end.

Definition getBlockWithTxHashes (blockIdentifier : option BlockReference) : M value :=
  let blockIdentifier :=
    match blockIdentifier with Some b => b | None => Tag pending end in
  let block_identifier := resolve blockIdentifier in
  fetchEndpoint "starknet_getBlockWithTxHashes" (VObj [("block_id", block_identifier)]).

Definition receipt_request (txHash : string) : request :=
  build_request (VStr "starknet_getTransactionReceipt")
    (VObj [("transaction_hash", VStr txHash)]).

(** [error?.response?.data], the argument of the handler in the [catch]. *)
Definition response_data (error : value) : value :=
  get_opt (get_opt error "response") "data".

(** [n] successive calls of the same endpoint, keeping the world only. *)
Fixpoint again (n : nat) (method : string) (params : value) (w : world) : world :=
  match n with
  | O => w
  | S n' => again n' method params (snd (fetchEndpoint method params w))
  end.

(** The trace of [n] passes of the loop that did not raise. *)
Definition rounds (n : nat) (txHash : string) (retryInterval : Z) : world :=
  List.concat (repeat [Slept retryInterval; Exchanged (receipt_request txHash)] n).

(** How one receipt fetch made in the world [w] ends. *)
Definition fetch_returns (txHash : string) (w : world) (res : value) : Prop :=
  fst (getTransactionReceipt txHash w) = Normal res.

Definition fetch_throws (txHash : string) (w : world) (e : value) : Prop :=
  fst (getTransactionReceipt txHash w) = Throw e.

Definition success_status (res : value) : Prop :=
  nullish res = false /\ includes successStates (get res "status") = true.

Definition failure_status (res : value) (status : string) : Prop :=
  nullish res = false /\ get res "status" = VStr status /\
  includes errorStates (VStr status) = true.

Definition nonterminal_status (res : value) : Prop :=
  nullish res = false /\
  includes successStates (get res "status") = false /\
  includes errorStates (get res "status") = false.

(** An exception that the [catch] of the loop does not rethrow. *)
Definition transient (e : value) : Prop :=
  instanceofError e && includes errorStates (get e "message") = false.

(** An exception that the [catch] of the loop rethrows. *)
Definition terminal (e : value) : Prop :=
  instanceofError e && includes errorStates (get e "message") = true.

(** A fetch that the loop counts as failed: it throws an exception that is
    not rethrown, or it resolves to [null] or [undefined], whose [status]
    cannot be read. *)
Definition failed_attempt (txHash : string) (w : world) : Prop :=
  (exists e : value, fetch_throws txHash w e /\ transient e) \/
  (exists res : value, fetch_returns txHash w res /\ nullish res = true).

Fixpoint has_colon (s : string) : bool :=
  match s with
  | EmptyString => false
  | String c s' => Ascii.eqb c ":" || has_colon s'
  end.

(** Values without properties of their own called [code] or [message]. *)
Definition propertyless (v : value) : bool :=
  match v with
  | VBool _ | VNum _ | VStr _ | VArr _ => true
  | _ => false
  end.

(** *** The endpoint methods

    The helpers of utils/hash, utils/number, utils/provider and utils/stark
    and the parsers of utils/responseParser/rpc are imported by rpc.ts and
    taken as given: each is a function that returns or throws.
    [randomAddress] may depend on the moment it is called. *)
Variable parseGetBlockResponse : value -> completion value.
Variable parseGetTransactionResponse : value -> completion value.
Variable parseFeeEstimateResponse : value -> completion value.
Variable parseCallContractResponse : value -> completion value.
Variable getSelectorFromName : value -> completion value.
Variable parseCalldata : value -> completion value.
Variable bigNumberishArrayToHexadecimalStringArray : value -> completion value.
Variable toBN : value -> completion value.
Variable toHex : value -> completion value.
Variable parseContract : value -> completion value.
Variable randomAddress : world -> value.

(** [a || b] and [a ?? b] *)
Definition or_else (a b : value) : value := if truthy a then a else b.
Definition nullish_else (a b : value) : value := if nullish a then b else a.

(** [v.k], which throws when [v] is [null] or [undefined]. *)
Definition member (v : value) (k : string) : M value :=
  if nullish v
  then throw (typeError "Cannot read properties of nullish value")
  else ret (get v k).

(** [toHex(toBN(x))] *)
Definition toHex_toBN (x : value) : M value :=
  bn <- lift (toBN x) ;; lift (toHex bn).

(** A block identifier that may be left out: [= 'pending']. *)
Definition block_id_of (blockIdentifier : option BlockReference) : value :=
  resolve match blockIdentifier with Some b => b | None => Tag pending end.

Definition getChainId : M value := fetchEndpoint "starknet_chainId" VUndefined.

Definition getBlock (blockIdentifier : option BlockReference) : M value :=
  let blockIdentifier :=
    match blockIdentifier with Some b => b | None => Tag pending end in
  res <- getBlockWithTxHashes (Some blockIdentifier) ;;
  lift (parseGetBlockResponse res).

Definition getBlockHashAndNumber : M value :=
  fetchEndpoint "starknet_blockHashAndNumber" VUndefined.

Definition getBlockWithTxs (blockIdentifier : option BlockReference) : M value :=
  fetchEndpoint "starknet_getBlockWithTxs"
    (VObj [("block_id", block_id_of blockIdentifier)]).

Definition getClassHashAt (blockIdentifier : BlockReference) (contractAddress : value)
    : M value :=
  fetchEndpoint "starknet_getClassHashAt"
    (VObj [("block_id", resolve blockIdentifier);
           ("contract_address", contractAddress)]).

Definition getNonce (contractAddress : value) : M value :=
  fetchEndpoint "starknet_getNonce" (VObj [("contract_address", contractAddress)]).

Definition getPendingTransactions : M value :=
  fetchEndpoint "starknet_pendingTransactions" VUndefined.

Definition getProtocolVersion : M value :=
  throw (newError "Pathfinder does not implement this rpc 0.1.0 method").

Definition getStateUpdate (blockIdentifier : BlockReference) : M value :=
  fetchEndpoint "starknet_getStateUpdate"
    (VObj [("block_id", resolve blockIdentifier)]).

Definition getStorageAt (contractAddress key : value)
    (blockIdentifier : option BlockReference) : M value :=
  parsedKey <- toHex_toBN key ;;
  fetchEndpoint "starknet_getStorageAt"
    (VObj [("contract_address", contractAddress);
           ("key", parsedKey);
           ("block_id", block_id_of blockIdentifier)]).

Definition getTransactionByHash (txHash : value) : M value :=
  let transaction_hash := txHash in
  fetchEndpoint "starknet_getTransactionByHash"
    (VObj [("transaction_hash", transaction_hash)]).

Definition getTransaction (txHash : value) : M value :=
  res <- getTransactionByHash txHash ;;
  lift (parseGetTransactionResponse res).

Definition getTransactionByBlockIdAndIndex (blockIdentifier : BlockReference)
    (index : value) : M value :=
  let block_id := resolve blockIdentifier in
  fetchEndpoint "starknet_getTransactionByBlockIdAndIndex"
    (VObj [("block_id", block_id); ("index", index)]).

Definition getClass (classHash : value) : M value :=
  fetchEndpoint "starknet_getClass" (VObj [("class_hash", classHash)]).

Definition getClassAt (contractAddress : value) (blockIdentifier : BlockReference)
    : M value :=
  let block_id := resolve blockIdentifier in
  fetchEndpoint "starknet_getClassAt"
    (VObj [("block_id", block_id); ("contract_address", contractAddress)]).

Definition getCode (_contractAddress : value) (_blockIdentifier : option BlockReference)
    : M value :=
  throw (newError "RPC 0.1.0 does not implement getCode function").

(** The members of an object literal are evaluated in the order written. *)
Definition getEstimateFee (invocation : value) (blockIdentifier : option BlockReference)
    (invocationDetails : value) : M value :=
  let invocationDetails :=
    match invocationDetails with VUndefined => VObj [] | d => d end in
  let block_id := block_id_of blockIdentifier in
  contract_address <- member invocation "contractAddress" ;;
  entrypoint <- member invocation "entrypoint" ;;
  entry_point_selector <- lift (getSelectorFromName entrypoint) ;;
  calldata0 <- member invocation "calldata" ;;
  calldata <- lift (parseCalldata calldata0) ;;
  signature0 <- member invocation "signature" ;;
  signature <-
    lift (bigNumberishArrayToHexadecimalStringArray (or_else signature0 (VArr []))) ;;
  version <- toHex_toBN (or_else (get_opt invocationDetails "version") (VNum 0)) ;;
  max_fee <- toHex_toBN (or_else (get_opt invocationDetails "maxFee") (VNum 0)) ;;
  res <- fetchEndpoint "starknet_estimateFee"
           (VObj [("request",
                   VObj [("contract_address", contract_address);
                         ("entry_point_selector", entry_point_selector);
                         ("calldata", calldata);
                         ("signature", signature);
                         ("version", version);
                         ("max_fee", max_fee)]);
                  ("block_id", block_id)]) ;;
  lift (parseFeeEstimateResponse res).

Definition declareContract (payload : value) : M value :=
  contract <- member payload "contract" ;;
  version0 <- member payload "version" ;;
  contractDefinition <- lift (parseContract contract) ;;
  program <- member contractDefinition "program" ;;
  entry_points_by_type <- member contractDefinition "entry_points_by_type" ;;
  abi <- member contractDefinition "abi" ;;
  version <- toHex_toBN (or_else version0 (VNum 0)) ;;
  fetchEndpoint "starknet_addDeclareTransaction"
    (VObj [("contract_class",
            VObj [("program", program);
                  ("entry_points_by_type", entry_points_by_type);
                  ("abi", abi)]);
           ("version", version)]).

Definition deployContract (payload : value) : M value :=
  contract <- member payload "contract" ;;
  constructorCalldata <- member payload "constructorCalldata" ;;
  addressSalt <- member payload "addressSalt" ;;
  contractDefinition <- lift (parseContract contract) ;;
  contract_address_salt <-
    (fun w => (Normal (nullish_else addressSalt (randomAddress w)), w)) ;;
  constructor_calldata <-
    lift (bigNumberishArrayToHexadecimalStringArray
            (nullish_else constructorCalldata (VArr []))) ;;
  program <- member contractDefinition "program" ;;
  entry_points_by_type <- member contractDefinition "entry_points_by_type" ;;
  abi <- member contractDefinition "abi" ;;
  fetchEndpoint "starknet_addDeployTransaction"
    (VObj [("contract_address_salt", contract_address_salt);
           ("constructor_calldata", constructor_calldata);
           ("contract_definition",
            VObj [("program", program);
                  ("entry_points_by_type", entry_points_by_type);
                  ("abi", abi)])]).

Definition invokeFunction (functionInvocation details : value) : M value :=
  contract_address <- member functionInvocation "contractAddress" ;;
  entrypoint <- member functionInvocation "entrypoint" ;;
  entry_point_selector <- lift (getSelectorFromName entrypoint) ;;
  calldata0 <- member functionInvocation "calldata" ;;
  calldata <- lift (parseCalldata calldata0) ;;
  signature0 <- member functionInvocation "signature" ;;
  signature <-
    lift (bigNumberishArrayToHexadecimalStringArray (or_else signature0 (VArr []))) ;;
  maxFee <- member details "maxFee" ;;
  max_fee <- toHex_toBN (or_else maxFee (VNum 0)) ;;
  version0 <- member details "version" ;;
  version <- toHex_toBN (or_else version0 (VNum 0)) ;;
  fetchEndpoint "starknet_addInvokeTransaction"
    (VObj [("function_invocation",
            VObj [("contract_address", contract_address);
                  ("entry_point_selector", entry_point_selector);
                  ("calldata", calldata)]);
           ("signature", signature);
           ("max_fee", max_fee);
           ("version", version)]).

Definition callContract (call : value) (blockIdentifier : option BlockReference)
    : M value :=
  let block_id := block_id_of blockIdentifier in
  contract_address <- member call "contractAddress" ;;
  entrypoint <- member call "entrypoint" ;;
  entry_point_selector <- lift (getSelectorFromName entrypoint) ;;
  calldata0 <- member call "calldata" ;;
  calldata <- lift (parseCalldata calldata0) ;;
  result <- fetchEndpoint "starknet_call"
              (VObj [("request",
                      VObj [("contract_address", contract_address);
                            ("entry_point_selector", entry_point_selector);
                            ("calldata", calldata)]);
                     ("block_id", block_id)]) ;;
  lift (parseCallContractResponse result).

Definition traceTransaction (transactionHash : value) : M value :=
  fetchEndpoint "starknet_traceTransaction"
    (VObj [("transaction_hash", transactionHash)]).

Definition traceBlockTransactions (blockHash : value) : M value :=
  fetchEndpoint "starknet_traceBlockTransactions" (VObj [("block_hash", blockHash)]).

Definition getTransactionCount (blockIdentifier : BlockReference) : M value :=
  fetchEndpoint "starknet_getBlockTransactionCount"
    (VObj [("block_id", resolve blockIdentifier)]).

Definition getBlockNumber : M value := fetchEndpoint "starknet_blockNumber" VUndefined.

Definition getSyncingStats : M value := fetchEndpoint "starknet_syncing" VUndefined.

Definition getEvents (eventFilter : value) : M value :=
  fetchEndpoint "starknet_getEvents" (VObj [("filter", eventFilter)]).

(** A computation that leaves the world as it is, or adds one exchange. *)
Definition at_most_one_exchange {A : Type} (m : M A) : Prop :=
  forall w : world,
    snd (m w) = w \/
    exists (method : string) (params : value),
      snd (m w) = (w ++ [Exchanged (build_request (VStr method) params)])%list.

Definition no_exchange {A : Type} (m : M A) : Prop :=
  forall w : world, snd (m w) = w.

(** ** The dispatcher *)

Lemma exchanges_app (w1 w2 : world) :
  exchanges (w1 ++ w2)%list = (exchanges w1 + exchanges w2)%nat.
Proof. unfold exchanges. now rewrite filter_app, length_app. Qed.

Lemma sleeps_app (w1 w2 : world) :
  sleeps (w1 ++ w2)%list = (sleeps w1 + sleeps w2)%nat.
Proof. unfold sleeps. now rewrite filter_app, length_app. Qed.

Lemma fetchEndpoint_world (method : string) (params : value) (w : world) :
  snd (fetchEndpoint method params w)
  = (w ++ [Exchanged (build_request (VStr method) params)])%list.
Proof.
  unfold fetchEndpoint, try_catch, bind, fetch, http.
  destruct (node (exchanges w) (build_request (VStr method) params)) as [e|e|v];
    cbn.
  - unfold errorHandler; destruct (truthy _); reflexivity.
  - unfold errorHandler; destruct (truthy _); reflexivity.
  - unfold destructure_error_result, errorHandler.
    destruct (nullish v); cbn.
    + reflexivity.
    + destruct (truthy (get v "error")); reflexivity.
Qed.

(** What the [catch] makes of an exception [e] raised in the [try]. *)
Lemma fetchEndpoint_caught (method : string) (params : value) (w : world) (e : value) :
  node (exchanges w) (build_request (VStr method) params) = NetFail e \/
  node (exchanges w) (build_request (VStr method) params) = BodyFail e ->
  fst (fetchEndpoint method params w)
  = Throw (if truthy (response_data e)
           then newError (toString (get (response_data e) "code") ++ ": "
                          ++ toString (get (response_data e) "message"))
           else e).
Proof.
  unfold fetchEndpoint, try_catch, bind, fetch, http, response_data.
  intros [H|H]; rewrite H; cbn; unfold errorHandler;
    destruct (truthy _); reflexivity.
Qed.

Lemma fetchEndpoint_body (method : string) (params : value) (w : world) (v : value) :
  node (exchanges w) (build_request (VStr method) params) = Body v ->
  nullish v = false ->
  fst (fetchEndpoint method params w)
  = if truthy (get v "error")
    then Throw (newError (toString (get (get v "error") "code") ++ ": "
                          ++ toString (get (get v "error") "message")))
    else Normal (get v "result").
Proof.
  unfold fetchEndpoint, try_catch, bind, fetch, http.
  intros H Hv; rewrite H; cbn.
  unfold destructure_error_result; rewrite Hv; cbn.
  unfold errorHandler. destruct (truthy (get v "error")); reflexivity.
Qed.

(** C2 (as amended): when the exchange itself fails with the exception [e]
    (the request is rejected, or the body cannot be decoded), the [catch]
    hands [e?.response?.data] to [errorHandler]: if that datum is truthy the
    call throws the node-style error built from its [code] and [message],
    otherwise it rethrows [e] itself, unchanged.  One exchange was made. *)
Theorem transport_failure_passes_errorHandler
    (method : string) (params : value) (w : world) (e : value) :
  node (exchanges w) (build_request (VStr method) params) = NetFail e \/
  node (exchanges w) (build_request (VStr method) params) = BodyFail e ->
  fetchEndpoint method params w
  = (Throw (if truthy (response_data e)
            then newError (toString (get (response_data e) "code") ++ ": "
                           ++ toString (get (response_data e) "message"))
            else e),
     w ++ [Exchanged (build_request (VStr method) params)])%list.
Proof.
  intros H.
  rewrite (surjective_pairing (fetchEndpoint method params w)).
  now rewrite fetchEndpoint_world, (fetchEndpoint_caught _ _ _ _ H).
Qed.

(** C6: a decoded envelope whose [error] member is an object makes the call
    throw an [Error] whose message is the rendering of [code], then a colon
    and a space, then the rendering of [message]; for an integer code and a
    string message that is the decimal code, ": " and the message.  An
    absent or [null] [error] member makes the call return [result]. *)
Theorem node_error_message
    (method : string) (params : value) (w : world) (ps : props_t) :
  node (exchanges w) (build_request (VStr method) params) = Body (VObj ps) ->
  (forall eps : props_t,
      lookup "error" ps = Some (VObj eps) ->
      fst (fetchEndpoint method params w)
      = Throw (newError (toString (get (VObj eps) "code") ++ ": "
                         ++ toString (get (VObj eps) "message")))) /\
  (forall (eps : props_t) (code : Z) (message : string),
      lookup "error" ps = Some (VObj eps) ->
      lookup "code" eps = Some (VNum code) ->
      lookup "message" eps = Some (VStr message) ->
      fst (fetchEndpoint method params w)
      = Throw (newError (string_of_Z code ++ ": " ++ message))) /\
  (lookup "error" ps = None \/ lookup "error" ps = Some VNull ->
   fst (fetchEndpoint method params w) = Normal (get (VObj ps) "result")).
Proof.
  intros H.
  pose proof (fetchEndpoint_body method params w (VObj ps) H eq_refl) as E.
  repeat split.
  - intros eps He. rewrite E. cbn. now rewrite He.
  - intros eps code message He Hc Hm. rewrite E. cbn. rewrite He. cbn.
    now rewrite Hc, Hm.
  - intros [He|He]; rewrite E; cbn; now rewrite He.
Qed.

(** C7: a decoded envelope with [result: X] and no [error] member makes the
    call return [X] itself. *)
Theorem result_returned_unchanged
    (method : string) (params : value) (w : world) (ps : props_t) (X : value) :
  node (exchanges w) (build_request (VStr method) params) = Body (VObj ps) ->
  lookup "result" ps = Some X ->
  lookup "error" ps = None ->
  fst (fetchEndpoint method params w) = Normal X.
Proof.
  intros H Hr He.
  rewrite (fetchEndpoint_body method params w (VObj ps) H eq_refl).
  cbn. now rewrite He, Hr.
Qed.

Lemma again_trace (n : nat) (method : string) (params : value) (w : world) :
  again n method params w
  = (w ++ repeat (Exchanged (build_request (VStr method) params)) n)%list.
Proof.
  revert w; induction n as [|n IH]; intros w; cbn.
  - now rewrite app_nil_r.
  - now rewrite IH, fetchEndpoint_world, <- app_assoc.
Qed.

(** C8: a call sends one request: a POST to the node URL whose body is the
    serialisation of the object with the members [method], [jsonrpc] (the
    string 2.0), [params] and [id] (the number 0), in this order, under the
    single header Content-Type: application/json.  Every call adds exactly
    one exchange to the world, so [n] identical calls make [n] exchanges. *)
Theorem one_request_per_call (method : string) (params : value) (w : world) :
  snd (fetchEndpoint method params w)
  = (w ++ [Exchanged
             {| req_url := nodeUrl this;
                req_method := "POST";
                req_body :=
                  stringify (VObj [("method", VStr method); ("jsonrpc", VStr "2.0");
                                   ("params", params); ("id", VNum 0)]);
                req_headers := [("Content-Type", "application/json")] |}])%list /\
  exchanges (snd (fetchEndpoint method params w)) = S (exchanges w) /\
  forall n : nat, exchanges (again n method params w) = (exchanges w + n)%nat.
Proof.
  repeat split.
  - apply fetchEndpoint_world.
  - rewrite fetchEndpoint_world, exchanges_app. cbn. lia.
  - intros n. rewrite again_trace, exchanges_app. f_equal.
    unfold exchanges.
    induction n as [|n IH]; simpl; [reflexivity | now rewrite IH].
Qed.

(** ** The poller *)

Lemma getTransactionReceipt_world (txHash : string) (w : world) :
  snd (getTransactionReceipt txHash w) = (w ++ [Exchanged (receipt_request txHash)])%list.
Proof.
  unfold getTransactionReceipt, bind, lift, receipt_request.
  pose proof (fetchEndpoint_world "starknet_getTransactionReceipt"
                (VObj [("transaction_hash", VStr txHash)]) w) as Hw.
  destruct (fetchEndpoint _ _ w) as [[res|e] w']; cbn in Hw |- *; exact Hw.
Qed.

Lemma failure_is_not_success (v : value) :
  includes errorStates v = true -> includes successStates v = false.
Proof.
  destruct v as [| |b|n|s|items|ps|name message ps]; cbn; try discriminate.
  destruct (String.eqb_spec s "REJECTED") as [->|_]; [reflexivity|].
  destruct (String.eqb_spec s "NOT_RECEIVED") as [->|_]; [reflexivity|].
  discriminate.
Qed.

Ltac enter_body txHash retryInterval w H :=
  unfold loop_body, bind, try_catch, wait;
  pose proof (getTransactionReceipt_world txHash (w ++ [Slept retryInterval])%list) as Hw;
  red in H;
  destruct (getTransactionReceipt txHash (w ++ [Slept retryInterval])%list) as [c w'];
  simpl fst in H; simpl snd in Hw; subst c w'; rewrite <- app_assoc;
  change ([Slept retryInterval] ++ [Exchanged (receipt_request txHash)])%list
    with [Slept retryInterval; Exchanged (receipt_request txHash)].

Lemma body_success (txHash : string) (retryInterval : Z) (l : locals) (w : world)
    (res : value) :
  fetch_returns txHash (w ++ [Slept retryInterval]) res ->
  success_status res ->
  loop_body txHash retryInterval l w
  = (Normal {| l_retries := l_retries l - 1; l_onchain := true |},
     w ++ [Slept retryInterval; Exchanged (receipt_request txHash)])%list.
Proof.
  intros H [Hn Hs]. enter_body txHash retryInterval w H.
  unfold status_of. rewrite Hn. unfold ret. now rewrite Hs.
Qed.

Lemma body_failure (txHash : string) (retryInterval : Z) (l : locals) (w : world)
    (res : value) (status : string) :
  fetch_returns txHash (w ++ [Slept retryInterval]) res ->
  failure_status res status ->
  loop_body txHash retryInterval l w
  = (Throw (VError "Error" status [("response", res)]),
     w ++ [Slept retryInterval; Exchanged (receipt_request txHash)])%list.
Proof.
  intros H (Hn & Hs & He). enter_body txHash retryInterval w H.
  unfold status_of. rewrite Hn. unfold ret, throw. rewrite Hs.
  rewrite (failure_is_not_success _ He), He.
  cbn [instanceofError get String.eqb Ascii.eqb Bool.eqb andb toString].
  now rewrite He.
Qed.

Lemma body_nonterminal (txHash : string) (retryInterval : Z) (l : locals) (w : world)
    (res : value) :
  fetch_returns txHash (w ++ [Slept retryInterval]) res ->
  nonterminal_status res ->
  loop_body txHash retryInterval l w
  = (Normal {| l_retries := l_retries l - 1; l_onchain := l_onchain l |},
     w ++ [Slept retryInterval; Exchanged (receipt_request txHash)])%list.
Proof.
  intros H (Hn & Hs & He). enter_body txHash retryInterval w H.
  unfold status_of. rewrite Hn. unfold ret. now rewrite Hs, He.
Qed.

Lemma body_transient (txHash : string) (retryInterval : Z) (l : locals) (w : world)
    (e : value) :
  fetch_throws txHash (w ++ [Slept retryInterval]) e ->
  transient e ->
  loop_body txHash retryInterval l w
  = (if l_retries l =? 0 then Throw timedout
     else Normal {| l_retries := l_retries l - 1; l_onchain := l_onchain l |},
     w ++ [Slept retryInterval; Exchanged (receipt_request txHash)])%list.
Proof.
  intros H Ht. enter_body txHash retryInterval w H.
  red in Ht. rewrite Ht. unfold throw, ret.
  now destruct (l_retries l =? 0).
Qed.

Lemma loop_body_world (txHash : string) (retryInterval : Z) (l : locals) (w : world) :
  snd (loop_body txHash retryInterval l w)
  = (w ++ [Slept retryInterval; Exchanged (receipt_request txHash)])%list.
Proof.
  unfold loop_body, bind, try_catch, wait.
  pose proof (getTransactionReceipt_world txHash (w ++ [Slept retryInterval])) as Hw.
  destruct (getTransactionReceipt txHash (w ++ [Slept retryInterval])%list) as [c w'].
  simpl snd in Hw; subst w'. rewrite <- app_assoc.
  change ([Slept retryInterval] ++ [Exchanged (receipt_request txHash)])%list
    with [Slept retryInterval; Exchanged (receipt_request txHash)].
  unfold status_of, throw, ret.
  destruct c as [res|e].
  - destruct (nullish res).
    + destruct (_ && _); [reflexivity|]. now destruct (l_retries l =? 0).
    + destruct (includes successStates _); [reflexivity|].
      destruct (includes errorStates (get res "status")); [|reflexivity].
      destruct (_ && _); [reflexivity|]. now destruct (l_retries l =? 0).
  - destruct (_ && _); [reflexivity|]. now destruct (l_retries l =? 0).
Qed.

Lemma while_exited (fuel : nat) (txHash : string) (retryInterval : Z)
    (l : locals) (w : world) :
  l_onchain l = true ->
  while_not_onchain fuel txHash retryInterval l w = (Exited, l, w).
Proof. intros H. destruct fuel; simpl; now rewrite H. Qed.

Lemma while_pass (fuel : nat) (txHash : string) (retryInterval : Z)
    (l l' : locals) (w w' : world) :
  l_onchain l = false ->
  loop_body txHash retryInterval l w = (Normal l', w') ->
  while_not_onchain (S fuel) txHash retryInterval l w
  = while_not_onchain fuel txHash retryInterval l' w'.
Proof. intros H E. simpl. now rewrite H, E. Qed.

Lemma while_raise (fuel : nat) (txHash : string) (retryInterval : Z)
    (l : locals) (w w' : world) (e : value) :
  l_onchain l = false ->
  loop_body txHash retryInterval l w = (Throw e, w') ->
  while_not_onchain (S fuel) txHash retryInterval l w = (Raised e, l, w').
Proof. intros H E. simpl. now rewrite H, E. Qed.

Lemma spinning_not_onchain (fuel : nat) (txHash : string) (retryInterval : Z)
    (l0 l : locals) (w0 w : world) :
  while_not_onchain fuel txHash retryInterval l0 w0 = (Spinning, l, w) ->
  l_onchain l = false.
Proof.
  revert l0 w0; induction fuel as [|fuel IH]; intros l0 w0; simpl.
  - destruct (l_onchain l0) eqn:E; intros H; inversion H; now subst.
  - destruct (l_onchain l0); [discriminate|].
    destruct (loop_body txHash retryInterval l0 w0) as [[l'|e] w']; [apply IH|discriminate].
Qed.

(** A session that is still spinning after [k] passes continues from the
    variables and the world it has reached. *)
Lemma while_split (k n : nat) (txHash : string) (retryInterval : Z)
    (l0 l : locals) (w0 w : world) :
  while_not_onchain k txHash retryInterval l0 w0 = (Spinning, l, w) ->
  while_not_onchain (k + n) txHash retryInterval l0 w0
  = while_not_onchain n txHash retryInterval l w.
Proof.
  revert l0 w0; induction k as [|k IH]; intros l0 w0; simpl.
  - destruct (l_onchain l0) eqn:E; intros H; inversion H; subst.
    destruct n; simpl; now rewrite ?E.
  - destruct (l_onchain l0); [discriminate|].
    destruct (loop_body txHash retryInterval l0 w0) as [[l'|e] w']; [apply IH|discriminate].
Qed.

Lemma while_world_extends (fuel : nat) (txHash : string) (retryInterval : Z)
    (l : locals) (w : world) :
  exists rest : world,
    snd (while_not_onchain fuel txHash retryInterval l w) = (w ++ rest)%list.
Proof.
  revert l w; induction fuel as [|fuel IH]; intros l w; simpl.
  - exists []. destruct (l_onchain l); simpl; now rewrite app_nil_r.
  - destruct (l_onchain l); [exists []; simpl; now rewrite app_nil_r|].
    pose proof (loop_body_world txHash retryInterval l w) as Hw.
    destruct (loop_body txHash retryInterval l w) as [[l'|e] w']; simpl in Hw; subst w'.
    + destruct (IH l' (w ++ [Slept retryInterval; Exchanged (receipt_request txHash)])%list)
        as [rest Hr].
      exists ([Slept retryInterval; Exchanged (receipt_request txHash)] ++ rest)%list.
      now rewrite Hr, <- app_assoc.
    + now exists [Slept retryInterval; Exchanged (receipt_request txHash)].
Qed.

Lemma rounds_S (n : nat) (txHash : string) (retryInterval : Z) (w : world) :
  ((w ++ [Slept retryInterval; Exchanged (receipt_request txHash)])
   ++ rounds n txHash retryInterval)%list
  = (w ++ rounds (S n) txHash retryInterval)%list.
Proof. unfold rounds. simpl. now rewrite <- app_assoc. Qed.

Lemma exchanges_rounds (n : nat) (txHash : string) (retryInterval : Z) :
  exchanges (rounds n txHash retryInterval) = n.
Proof.
  unfold rounds, exchanges.
  induction n as [|n IH]; simpl; [reflexivity | now rewrite IH].
Qed.

Lemma sleeps_rounds (n : nat) (txHash : string) (retryInterval : Z) :
  sleeps (rounds n txHash retryInterval) = n.
Proof.
  unfold rounds, sleeps.
  induction n as [|n IH]; simpl; [reflexivity | now rewrite IH].
Qed.

(** When every fetch returns a receipt whose status is in neither list, the
    loop only counts down: after [fuel] passes it is still running. *)
Lemma nonterminal_spins (txHash : string) (retryInterval : Z) :
  (forall w : world, exists res : value,
      fetch_returns txHash w res /\ nonterminal_status res) ->
  forall (fuel : nat) (l : locals) (w : world),
    l_onchain l = false ->
    while_not_onchain fuel txHash retryInterval l w
    = (Spinning,
       {| l_retries := l_retries l - Z.of_nat fuel; l_onchain := false |},
       w ++ rounds fuel txHash retryInterval)%list.
Proof.
  intros Hall fuel; induction fuel as [|fuel IH]; intros l w Hl.
  - simpl. rewrite Hl. destruct l as [r o]; simpl in *; subst o.
    now rewrite Z.sub_0_r, app_nil_r.
  - destruct (Hall (w ++ [Slept retryInterval])%list) as (res & Hf & Hs).
    rewrite (while_pass _ _ _ _ _ _ _ Hl (body_nonterminal _ _ l _ _ Hf Hs)).
    rewrite IH by (simpl; exact Hl). simpl l_retries.
    rewrite rounds_S. do 3 f_equal. lia.
Qed.

(** When every fetch throws an exception that is not a terminal status, a
    budget of [n] is used up by [n + 1] passes. *)
Lemma transient_exhausts (txHash : string) (retryInterval : Z) :
  (forall w : world, exists e : value,
      fetch_throws txHash w e /\ transient e) ->
  forall (n fuel : nat) (l : locals) (w : world),
    l_onchain l = false ->
    l_retries l = Z.of_nat n ->
    while_not_onchain (S n + fuel) txHash retryInterval l w
    = (Raised timedout,
       {| l_retries := 0; l_onchain := false |},
       w ++ rounds (S n) txHash retryInterval)%list.
Proof.
  intros Hall n; induction n as [|n IH]; intros fuel l w Hl Hr;
    destruct (Hall (w ++ [Slept retryInterval])%list) as (e & Hf & Ht);
    pose proof (body_transient _ _ l _ _ Hf Ht) as Hb.
  - rewrite Hr in Hb. simpl in Hb.
    rewrite (while_raise _ _ _ _ _ _ _ Hl Hb).
    destruct l as [r o]; simpl in *; subst. reflexivity.
  - replace (l_retries l =? 0) with false in Hb by (symmetry; apply Z.eqb_neq; lia).
    change (S (S n) + fuel)%nat with (S (S n + fuel)).
    rewrite (while_pass _ _ _ _ _ _ _ Hl Hb).
    rewrite IH by (simpl; try exact Hl; lia).
    now rewrite rounds_S.
Qed.

Lemma session_nonterminal (txHash : string) (retryInterval : option Z) :
  (forall w : world, exists res : value,
      fetch_returns txHash w res /\ nonterminal_status res) ->
  forall (fuel : nat) (w : world),
    waitForTransaction fuel txHash retryInterval w
    = {| outcome := Running;
         vars := {| l_retries := retries this - Z.of_nat fuel; l_onchain := false |};
         after := (w ++ rounds fuel txHash (interval_of retryInterval))%list |}.
Proof.
  intros Hall fuel w. unfold waitForTransaction.
  now rewrite (nonterminal_spins _ _ Hall).
Qed.

Lemma session_transient (txHash : string) (retryInterval : option Z) :
  (forall w : world, exists e : value,
      fetch_throws txHash w e /\ transient e) ->
  forall (n fuel : nat) (w : world),
    retries this = Z.of_nat n ->
    waitForTransaction (S n + fuel) txHash retryInterval w
    = {| outcome := Threw timedout;
         vars := {| l_retries := 0; l_onchain := false |};
         after := (w ++ rounds (S n) txHash (interval_of retryInterval))%list |}.
Proof.
  intros Hall n fuel w Hr. unfold waitForTransaction.
  now rewrite (transient_exhausts _ _ Hall n fuel
                 {| l_retries := retries this; l_onchain := false |} w eq_refl Hr).
Qed.

Lemma success_on_first_fetch_aux
    (txHash : string) (retryInterval : option Z) (w : world) (fuel : nat) (res : value) :
  fetch_returns txHash (w ++ [Slept (interval_of retryInterval)]) res ->
  success_status res ->
  waitForTransaction (S fuel) txHash retryInterval w
  = {| outcome := Returned VUndefined;
       vars := {| l_retries := retries this - 1; l_onchain := true |};
       after := (w ++ [Slept (interval_of retryInterval);
                       Exchanged (receipt_request txHash);
                       Slept (interval_of retryInterval)])%list |}.
Proof.
  intros Hf Hs. unfold waitForTransaction.
  rewrite (while_pass _ _ _ {| l_retries := retries this; l_onchain := false |} _ _ _
             eq_refl (body_success _ _ _ _ _ Hf Hs)).
  rewrite while_exited by reflexivity.
  unfold wait; simpl. now rewrite <- app_assoc.
Qed.

(** C4 (as amended): when the first fetch returns a receipt whose status is
    one of the success states, the session makes that one fetch, leaves the
    loop, suspends once more and returns [undefined]; the receipt is not
    handed to the caller, and the local counter has gone down by one. *)
Theorem success_on_first_fetch
    (txHash : string) (retryInterval : option Z) (w : world) (fuel : nat) (res : value) :
  fetch_returns txHash (w ++ [Slept (interval_of retryInterval)]) res ->
  success_status res ->
  waitForTransaction (S fuel) txHash retryInterval w
  = {| outcome := Returned VUndefined;
       vars := {| l_retries := retries this - 1; l_onchain := true |};
       after := (w ++ [Slept (interval_of retryInterval);
                       Exchanged (receipt_request txHash);
                       Slept (interval_of retryInterval)])%list |}.
Proof.
  intros Hf Hs. exact (success_on_first_fetch_aux _ _ _ _ _ Hf Hs).
Qed.

(** C5: when a session that is still in its loop after [k] passes fetches a
    receipt whose status is REJECTED or NOT_RECEIVED, it throws at once an
    [Error] whose message is that status and whose [response] is the whole
    receipt: one suspension and one exchange after the [k] passes, the
    counter as it was before the pass, and no use of whatever fuel is left. *)
Theorem terminal_rejection_is_immediate
    (txHash : string) (retryInterval : option Z) (w0 w : world) (k fuel : nat)
    (l : locals) (res : value) (status : string) :
  while_not_onchain k txHash (interval_of retryInterval)
    {| l_retries := retries this; l_onchain := false |} w0 = (Spinning, l, w) ->
  fetch_returns txHash (w ++ [Slept (interval_of retryInterval)]) res ->
  failure_status res status ->
  waitForTransaction (k + S fuel) txHash retryInterval w0
  = {| outcome := Threw (VError "Error" status [("response", res)]);
       vars := l;
       after := (w ++ [Slept (interval_of retryInterval);
                       Exchanged (receipt_request txHash)])%list |}.
Proof.
  intros Hk Hf Hs. unfold waitForTransaction.
  rewrite (while_split _ (S fuel) _ _ _ _ _ _ Hk).
  now rewrite (while_raise _ _ _ _ _ _ _
                 (spinning_not_onchain _ _ _ _ _ _ _ Hk)
                 (body_failure _ _ _ _ _ _ Hf Hs)).
Qed.

(** ** Block references *)

(** C9: resolution is a function from block references to wire values (no
    world, no exception): a tag gives the tag string, a height [n] the
    object with the single member [block_number: n], a hash [h] the object
    with the single member [block_hash: h], for every height and every
    string whatsoever; distinct references give distinct wire values; and
    [getBlockWithTxHashes] sends the resolved value as [block_id] in its
    one exchange. *)
Theorem resolve_wire_shapes :
  (forall t : BlockTag, resolve (Tag t) = VStr (tag_string t)) /\
  (forall n : N, resolve (Height n) = VObj [("block_number", VNum (Z.of_N n))]) /\
  (forall h : string, resolve (Hash h) = VObj [("block_hash", VStr h)]) /\
  (forall a b : BlockReference, resolve a = resolve b -> a = b) /\
  (forall (ref : BlockReference) (w : world),
      snd (getBlockWithTxHashes (Some ref) w)
      = (w ++ [Exchanged (build_request (VStr "starknet_getBlockWithTxHashes")
                            (VObj [("block_id", resolve ref)]))])%list).
Proof.
  repeat split.
  - intros [[]|n|h] [[]|n'|h']; simpl; intros H; try discriminate; try reflexivity.
    + injection H as H. apply N2Z.inj in H. now subst.
    + injection H as H. now subst.
  - intros ref w. unfold getBlockWithTxHashes. apply fetchEndpoint_world.
Qed.

(** ** The loop as a whole *)

Lemma loop_body_cases (txHash : string) (retryInterval : Z) (l : locals) (w : world) :
  exists c : completion locals,
    loop_body txHash retryInterval l w
    = (c, w ++ [Slept retryInterval; Exchanged (receipt_request txHash)])%list /\
    (c = Normal {| l_retries := l_retries l - 1; l_onchain := true |} \/
     c = Normal {| l_retries := l_retries l - 1; l_onchain := l_onchain l |} \/
     (exists e : value, c = Throw e /\ terminal e) \/
     (c = Throw timedout /\ l_retries l = 0)).
Proof.
  unfold loop_body, bind, try_catch, wait.
  pose proof (getTransactionReceipt_world txHash (w ++ [Slept retryInterval])) as Hw.
  destruct (getTransactionReceipt txHash (w ++ [Slept retryInterval])%list) as [c w'].
  simpl snd in Hw; subst w'. rewrite <- app_assoc.
  change ([Slept retryInterval] ++ [Exchanged (receipt_request txHash)])%list
    with [Slept retryInterval; Exchanged (receipt_request txHash)].
  unfold status_of, throw, ret.
  assert (Hcheck : forall w0 : world,
             exists c0 : completion locals,
               (if l_retries l =? 0
                then (Throw timedout, w0)
                else (Normal {| l_retries := l_retries l - 1; l_onchain := l_onchain l |}, w0))
               = (c0, w0) /\
               (c0 = Normal {| l_retries := l_retries l - 1; l_onchain := true |} \/
                c0 = Normal {| l_retries := l_retries l - 1; l_onchain := l_onchain l |} \/
                (exists e : value, c0 = Throw e /\ terminal e) \/
                (c0 = Throw timedout /\ l_retries l = 0))).
  { intros w0. destruct (Z.eqb_spec (l_retries l) 0) as [E|E]; eexists; (split; [reflexivity|]).
    - right; right; right. now split.
    - right; left. reflexivity. }
  destruct c as [res|e].
  - destruct (nullish res).
    + cbn [instanceofError typeError get String.eqb Ascii.eqb Bool.eqb andb].
      change (includes errorStates
                (VStr "Cannot read properties of nullish value (reading 'status')"))
        with false.
      destruct (Hcheck (w ++ [Slept retryInterval; Exchanged (receipt_request txHash)])%list)
        as (c0 & E & H).
      exists c0. split; [|exact H].
      destruct (l_retries l =? 0); exact E.
    + destruct (includes successStates (get res "status")).
      { eexists; split; [reflexivity|]. now left. }
      destruct (includes errorStates (get res "status")) eqn:He.
      * destruct (get res "status") as [| |b|n|s|items|ps|name message ps];
          try discriminate He.
        cbn [instanceofError get String.eqb Ascii.eqb Bool.eqb andb toString].
        rewrite He.
        eexists; split; [reflexivity|]. right; right; left.
        eexists; split; [reflexivity|].
        unfold terminal.
        cbn [instanceofError get String.eqb Ascii.eqb Bool.eqb andb].
        exact He.
      * eexists; split; [reflexivity|]. right; left. reflexivity.
  - destruct (instanceofError e && includes errorStates (get e "message")) eqn:E.
    + eexists; split; [reflexivity|]. right; right; left.
      exists e. now split.
    + destruct (Hcheck (w ++ [Slept retryInterval; Exchanged (receipt_request txHash)])%list)
        as (c0 & E0 & H).
      exists c0. split; [|exact H].
      destruct (l_retries l =? 0); exact E0.
Qed.

Lemma timedout_not_terminal : ~ terminal timedout.
Proof. unfold terminal. cbv. discriminate. Qed.

(** The state of the loop after at most [fuel] passes from [l] and [w]: the
    number [k] of passes made fixes the trace and the counter. *)
Lemma while_trace (txHash : string) (retryInterval : Z) (fuel : nat) :
  forall (l : locals) (w : world),
    l_onchain l = false ->
    exists k : nat,
      (k <= fuel)%nat /\
      snd (while_not_onchain fuel txHash retryInterval l w)
      = (w ++ rounds k txHash retryInterval)%list /\
      match fst (fst (while_not_onchain fuel txHash retryInterval l w)) with
      | Spinning =>
          k = fuel /\
          snd (fst (while_not_onchain fuel txHash retryInterval l w))
          = {| l_retries := l_retries l - Z.of_nat k; l_onchain := false |}
      | Exited =>
          (1 <= k)%nat /\
          snd (fst (while_not_onchain fuel txHash retryInterval l w))
          = {| l_retries := l_retries l - Z.of_nat k; l_onchain := true |}
      | Raised e =>
          (1 <= k)%nat /\
          snd (fst (while_not_onchain fuel txHash retryInterval l w))
          = {| l_retries := l_retries l - Z.of_nat k + 1; l_onchain := false |} /\
          (terminal e \/ (e = timedout /\ l_retries l - Z.of_nat k + 1 = 0))
      end.
Proof.
  induction fuel as [|fuel IH]; intros l w Hl.
  - exists O. simpl. rewrite Hl. simpl. rewrite app_nil_r.
    destruct l as [r o]; simpl in *; subst o.
    repeat split; try lia. now rewrite Z.sub_0_r.
  - destruct (loop_body_cases txHash retryInterval l w) as (c & Hb & [Hc|[Hc|[Hc|Hc]]]).
    + subst c. rewrite (while_pass _ _ _ _ _ _ _ Hl Hb).
      rewrite while_exited by reflexivity.
      exists 1%nat. simpl. unfold rounds; simpl.
      repeat split; try lia.
    + subst c. rewrite (while_pass _ _ _ _ _ _ _ Hl Hb). rewrite Hl.
      destruct (IH {| l_retries := l_retries l - 1; l_onchain := false |}
                  (w ++ [Slept retryInterval; Exchanged (receipt_request txHash)])%list
                  eq_refl) as (k & Hk & Hw & Hx).
      exists (S k). split; [lia|]. split; [now rewrite Hw, rounds_S|].
      destruct (fst (fst (while_not_onchain fuel txHash retryInterval _ _))) as [| |e];
        simpl l_retries in Hx.
      * destruct Hx as [-> ->]. split; [reflexivity|]. f_equal. lia.
      * destruct Hx as [H1 ->]. split; [lia|]. f_equal. lia.
      * destruct Hx as (H1 & -> & Ht). split; [lia|]. split; [f_equal; lia|].
        destruct Ht as [Ht|[-> Ht]]; [now left|right]. split; [reflexivity|lia].
    + destruct Hc as (e & -> & Ht). rewrite (while_raise _ _ _ _ _ _ _ Hl Hb).
      exists 1%nat. simpl. unfold rounds; simpl.
      destruct l as [r o]; simpl in *; subst o.
      repeat split; try lia; [f_equal; lia | now left].
    + destruct Hc as [-> H0]. rewrite (while_raise _ _ _ _ _ _ _ Hl Hb).
      exists 1%nat. simpl. unfold rounds; simpl.
      destruct l as [r o]; simpl in *; subst o.
      repeat split; try lia; [f_equal; lia | right; split; [reflexivity|lia]].
Qed.

Lemma session_inv (fuel : nat) (txHash : string) (retryInterval : option Z) (w : world) :
  exists k : nat,
    (k <= fuel)%nat /\
    match outcome (waitForTransaction fuel txHash retryInterval w) with
    | Running =>
        k = fuel /\
        after (waitForTransaction fuel txHash retryInterval w)
        = (w ++ rounds k txHash (interval_of retryInterval))%list /\
        vars (waitForTransaction fuel txHash retryInterval w)
        = {| l_retries := retries this - Z.of_nat k; l_onchain := false |}
    | Returned v =>
        v = VUndefined /\ (1 <= k)%nat /\
        after (waitForTransaction fuel txHash retryInterval w)
        = (w ++ rounds k txHash (interval_of retryInterval)
             ++ [Slept (interval_of retryInterval)])%list /\
        vars (waitForTransaction fuel txHash retryInterval w)
        = {| l_retries := retries this - Z.of_nat k; l_onchain := true |}
    | Threw e =>
        (1 <= k)%nat /\
        after (waitForTransaction fuel txHash retryInterval w)
        = (w ++ rounds k txHash (interval_of retryInterval))%list /\
        vars (waitForTransaction fuel txHash retryInterval w)
        = {| l_retries := retries this - Z.of_nat k + 1; l_onchain := false |} /\
        (terminal e \/ (e = timedout /\ retries this - Z.of_nat k + 1 = 0))
    end.
Proof.
  unfold waitForTransaction.
  destruct (while_trace txHash (interval_of retryInterval) fuel
              {| l_retries := retries this; l_onchain := false |} w eq_refl)
    as (k & Hk & Hw & Hx).
  exists k. split; [exact Hk|].
  destruct (while_not_onchain fuel txHash (interval_of retryInterval) _ w) as [[x l] w'].
  simpl in Hw, Hx. subst w'.
  destruct x as [| |e]; simpl.
  - destruct Hx as [-> ->]. now repeat split.
  - destruct Hx as [H1 ->]. repeat split; [exact H1|]. now rewrite <- app_assoc.
  - destruct Hx as (H1 & -> & Ht). now repeat split.
Qed.

(** X1: Every suspension but the last is followed by one fetch, always of the
    same request: the trace of a session is [k] rounds of one suspension
    and one receipt request, for some [k] within the passes allowed, and
    one more suspension exactly when the session returns.  Whatever it
    returns is [undefined].  The counter never rises above the provider's
    budget: it is the budget minus the passes that did not throw. *)
Theorem session_trace_shape
    (fuel : nat) (txHash : string) (retryInterval : option Z) (w : world) :
  exists k : nat,
    (k <= fuel)%nat /\
    after (waitForTransaction fuel txHash retryInterval w)
    = (w ++ rounds k txHash (interval_of retryInterval)
         ++ match outcome (waitForTransaction fuel txHash retryInterval w) with
            | Returned _ => [Slept (interval_of retryInterval)]
            | _ => []
            end)%list /\
    l_retries (vars (waitForTransaction fuel txHash retryInterval w))
    = retries this - Z.of_nat k
      + match outcome (waitForTransaction fuel txHash retryInterval w) with
        | Threw _ => 1
        | _ => 0
        end /\
    l_retries (vars (waitForTransaction fuel txHash retryInterval w)) <= retries this /\
    match outcome (waitForTransaction fuel txHash retryInterval w) with
    | Running => k = fuel
    | Returned v => v = VUndefined /\ (1 <= k)%nat
    | Threw _ => (1 <= k)%nat
    end.
Proof.
  destruct (session_inv fuel txHash retryInterval w) as (k & Hk & H).
  exists k. split; [exact Hk|].
  destruct (outcome (waitForTransaction fuel txHash retryInterval w)) as [|v|e].
  - destruct H as (-> & -> & ->). simpl. rewrite app_nil_r. repeat split; lia.
  - destruct H as (-> & H1 & -> & ->). simpl. repeat split; lia.
  - destruct H as (H1 & -> & -> & _). simpl. rewrite app_nil_r. repeat split; lia.
Qed.

(** X3: A session throws only two kinds of exception: one whose message is
    REJECTED or NOT_RECEIVED, or the timed-out error.  Any other exception
    of a fetch is swallowed by the loop. *)
Theorem session_throws_terminal_or_timedout
    (fuel : nat) (txHash : string) (retryInterval : option Z) (w : world) (e : value) :
  outcome (waitForTransaction fuel txHash retryInterval w) = Threw e ->
  terminal e \/ e = timedout.
Proof.
  intros H. destruct (session_inv fuel txHash retryInterval w) as (k & _ & Hx).
  rewrite H in Hx. destruct Hx as (_ & _ & _ & [Ht|[-> _]]); [now left|now right].
Qed.

(** X4: The timed-out error is thrown only by the pass that finds the counter at
    0: the budget was not negative, and the session has made exactly
    budget + 1 suspensions and budget + 1 fetches. *)
Theorem timedout_after_budget_plus_one
    (fuel : nat) (txHash : string) (retryInterval : option Z) (w : world) :
  outcome (waitForTransaction fuel txHash retryInterval w) = Threw timedout ->
  0 <= retries this /\
  l_retries (vars (waitForTransaction fuel txHash retryInterval w)) = 0 /\
  Z.of_nat (exchanges (after (waitForTransaction fuel txHash retryInterval w)))
  = Z.of_nat (exchanges w) + retries this + 1 /\
  Z.of_nat (sleeps (after (waitForTransaction fuel txHash retryInterval w)))
  = Z.of_nat (sleeps w) + retries this + 1.
Proof.
  intros H. destruct (session_inv fuel txHash retryInterval w) as (k & _ & Hx).
  rewrite H in Hx. destruct Hx as (H1 & -> & -> & [Ht|[_ H0]]).
  - now destruct timedout_not_terminal.
  - rewrite exchanges_app, sleeps_app, exchanges_rounds, sleeps_rounds. simpl.
    repeat split; lia.
Qed.

(** ** Failed fetches and the budget *)

Lemma body_failed (txHash : string) (retryInterval : Z) (l : locals) (w : world) :
  failed_attempt txHash (w ++ [Slept retryInterval]) ->
  loop_body txHash retryInterval l w
  = (if l_retries l =? 0 then Throw timedout
     else Normal {| l_retries := l_retries l - 1; l_onchain := l_onchain l |},
     w ++ [Slept retryInterval; Exchanged (receipt_request txHash)])%list.
Proof.
  intros [(e & Hf & Ht)|(res & Hf & Hn)].
  - now apply (body_transient _ _ _ _ e).
  - enter_body txHash retryInterval w Hf.
    unfold status_of. rewrite Hn. unfold throw, ret.
    cbn [instanceofError typeError get String.eqb Ascii.eqb Bool.eqb andb].
    change (includes errorStates
              (VStr "Cannot read properties of nullish value (reading 'status')"))
      with false.
    now destruct (l_retries l =? 0).
Qed.

(** While the counter does not meet 0, failed fetches only count down. *)
Lemma failed_spins (txHash : string) (retryInterval : Z) :
  (forall w : world, failed_attempt txHash w) ->
  forall (fuel : nat) (l : locals) (w : world),
    l_onchain l = false ->
    l_retries l < 0 \/ Z.of_nat fuel <= l_retries l ->
    while_not_onchain fuel txHash retryInterval l w
    = (Spinning,
       {| l_retries := l_retries l - Z.of_nat fuel; l_onchain := false |},
       w ++ rounds fuel txHash retryInterval)%list.
Proof.
  intros Hall fuel; induction fuel as [|fuel IH]; intros l w Hl Hr.
  - simpl. rewrite Hl. destruct l as [r o]; simpl in *; subst o.
    now rewrite Z.sub_0_r, app_nil_r.
  - pose proof (body_failed _ _ l _ (Hall (w ++ [Slept retryInterval])%list)) as Hb.
    replace (l_retries l =? 0) with false in Hb by (symmetry; apply Z.eqb_neq; lia).
    rewrite (while_pass _ _ _ _ _ _ _ Hl Hb).
    rewrite IH by (simpl; try exact Hl; lia). simpl l_retries.
    rewrite rounds_S. do 3 f_equal. lia.
Qed.

Lemma failed_exhausts (txHash : string) (retryInterval : Z) :
  (forall w : world, failed_attempt txHash w) ->
  forall (n fuel : nat) (l : locals) (w : world),
    l_onchain l = false ->
    l_retries l = Z.of_nat n ->
    while_not_onchain (S n + fuel) txHash retryInterval l w
    = (Raised timedout,
       {| l_retries := 0; l_onchain := false |},
       w ++ rounds (S n) txHash retryInterval)%list.
Proof.
  intros Hall n; induction n as [|n IH]; intros fuel l w Hl Hr;
    pose proof (body_failed _ _ l _ (Hall (w ++ [Slept retryInterval])%list)) as Hb.
  - rewrite Hr in Hb. simpl in Hb.
    rewrite (while_raise _ _ _ _ _ _ _ Hl Hb).
    destruct l as [r o]; simpl in *; subst. reflexivity.
  - replace (l_retries l =? 0) with false in Hb by (symmetry; apply Z.eqb_neq; lia).
    change (S (S n) + fuel)%nat with (S (S n + fuel)).
    rewrite (while_pass _ _ _ _ _ _ _ Hl Hb).
    rewrite IH by (simpl; try exact Hl; lia).
    now rewrite rounds_S.
Qed.

Lemma session_failed (txHash : string) (retryInterval : option Z) :
  (forall w : world, failed_attempt txHash w) ->
  forall (n : nat) (w : world),
    retries this = Z.of_nat n ->
    (forall fuel : nat,
        (fuel <= n)%nat ->
        outcome (waitForTransaction fuel txHash retryInterval w) = Running) /\
    (forall more : nat,
        waitForTransaction (S n + more) txHash retryInterval w
        = {| outcome := Threw timedout;
             vars := {| l_retries := 0; l_onchain := false |};
             after := (w ++ rounds (S n) txHash (interval_of retryInterval))%list |}).
Proof.
  intros Hall n w Hr. split.
  - intros fuel Hf. unfold waitForTransaction.
    rewrite (failed_spins _ _ Hall fuel {| l_retries := retries this; l_onchain := false |} w
               eq_refl); [reflexivity|].
    right. simpl. lia.
  - intros more. unfold waitForTransaction.
    now rewrite (failed_exhausts _ _ Hall n more
                   {| l_retries := retries this; l_onchain := false |} w eq_refl Hr).
Qed.

(** X5: When every fetch throws an exception that is not a terminal status, a
    budget of [n] (not negative) allows exactly [n + 1] attempts: the
    session is still polling after [n] passes and throws the timed-out
    error in pass [n + 1], after [n + 1] suspensions and fetches. *)
Theorem failing_fetches_use_budget_plus_one
    (txHash : string) (retryInterval : option Z) (n : nat) (w : world) :
  (forall w0 : world, exists e : value, fetch_throws txHash w0 e /\ transient e) ->
  retries this = Z.of_nat n ->
  (forall fuel : nat,
      (fuel <= n)%nat ->
      outcome (waitForTransaction fuel txHash retryInterval w) = Running) /\
  (forall more : nat,
      outcome (waitForTransaction (S n + more) txHash retryInterval w) = Threw timedout /\
      exchanges (after (waitForTransaction (S n + more) txHash retryInterval w))
      = (exchanges w + S n)%nat /\
      sleeps (after (waitForTransaction (S n + more) txHash retryInterval w))
      = (sleeps w + S n)%nat).
Proof.
  intros Hall Hr.
  assert (Hall' : forall w0 : world, failed_attempt txHash w0)
    by (intros w0; left; apply Hall).
  destruct (session_failed txHash retryInterval Hall' n w Hr) as [H1 H2].
  split; [exact H1|]. intros more. rewrite H2. simpl outcome. simpl after.
  now rewrite exchanges_app, sleeps_app, exchanges_rounds, sleeps_rounds.
Qed.

(** X6: A receipt that is [null] or [undefined] is handled like a failed fetch:
    reading its status throws inside the [try], so when every fetch
    resolves to such a value a budget of [n] ends in the timed-out error
    after exactly [n + 1] fetches. *)
Theorem missing_receipts_use_budget_plus_one
    (txHash : string) (retryInterval : option Z) (n : nat) (w : world) :
  (forall w0 : world, exists res : value,
      fetch_returns txHash w0 res /\ nullish res = true) ->
  retries this = Z.of_nat n ->
  (forall fuel : nat,
      (fuel <= n)%nat ->
      outcome (waitForTransaction fuel txHash retryInterval w) = Running) /\
  (forall more : nat,
      outcome (waitForTransaction (S n + more) txHash retryInterval w) = Threw timedout /\
      exchanges (after (waitForTransaction (S n + more) txHash retryInterval w))
      = (exchanges w + S n)%nat).
Proof.
  intros Hall Hr.
  assert (Hall' : forall w0 : world, failed_attempt txHash w0)
    by (intros w0; right; apply Hall).
  destruct (session_failed txHash retryInterval Hall' n w Hr) as [H1 H2].
  split; [exact H1|]. intros more. rewrite H2. simpl outcome. simpl after.
  now rewrite exchanges_app, exchanges_rounds.
Qed.

(** X7: A negative budget is never used up: the test is [retries === 0] and the
    counter only moves away from 0, so with fetches that keep failing the
    session polls for ever. *)
Theorem negative_budget_never_times_out
    (txHash : string) (retryInterval : option Z) (fuel : nat) (w : world) :
  (forall w0 : world, failed_attempt txHash w0) ->
  retries this < 0 ->
  outcome (waitForTransaction fuel txHash retryInterval w) = Running /\
  l_retries (vars (waitForTransaction fuel txHash retryInterval w))
  = retries this - Z.of_nat fuel /\
  exchanges (after (waitForTransaction fuel txHash retryInterval w))
  = (exchanges w + fuel)%nat.
Proof.
  intros Hall Hr. unfold waitForTransaction.
  rewrite (failed_spins _ _ Hall fuel {| l_retries := retries this; l_onchain := false |} w
             eq_refl) by (left; exact Hr).
  simpl. now rewrite exchanges_app, exchanges_rounds.
Qed.

(** ** Errors of the node seen from the loop *)

Lemma has_colon_app (a b : string) : has_colon (a ++ ": " ++ b) = true.
Proof.
  induction a as [|c a IH]; simpl in *.
  - reflexivity.
  - rewrite IH. apply orb_true_r.
Qed.

Lemma node_style_transient (a b : string) : transient (newError (a ++ ": " ++ b)).
Proof.
  pose proof (has_colon_app a b) as Hc.
  revert Hc. generalize (a ++ ": " ++ b). intros s Hc.
  unfold transient, newError.
  cbn [instanceofError get String.eqb Ascii.eqb Bool.eqb andb].
  unfold includes, errorStates. simpl existsb.
  destruct (String.eqb_spec s "REJECTED") as [E|_];
    [rewrite E in Hc; discriminate Hc|].
  destruct (String.eqb_spec s "NOT_RECEIVED") as [E|_];
    [rewrite E in Hc; discriminate Hc|].
  reflexivity.
Qed.

Lemma receipt_fetch_throws (txHash : string) (w : world) (e : value) :
  fst (fetchEndpoint "starknet_getTransactionReceipt"
         (VObj [("transaction_hash", VStr txHash)]) w) = Throw e ->
  fetch_throws txHash w e.
Proof.
  unfold fetch_throws, getTransactionReceipt, bind.
  destruct (fetchEndpoint _ _ w) as [[r|e'] w']; simpl; [discriminate|trivial].
Qed.

(** X8: What the node reports as an error never ends a wait by itself: the
    message built by the handler contains a colon, so it is no terminal
    status, and the loop swallows it.  When every answer carries a truthy
    [error] member, a budget of [n] ends in the timed-out error after
    exactly [n + 1] fetches, whatever the receipt parser is. *)
Theorem node_errors_use_budget_plus_one
    (txHash : string) (retryInterval : option Z) (n : nat) (w : world) :
  (forall (i : nat) (r : request), exists v : value,
      node i r = Body v /\ nullish v = false /\ truthy (get v "error") = true) ->
  retries this = Z.of_nat n ->
  (forall fuel : nat,
      (fuel <= n)%nat ->
      outcome (waitForTransaction fuel txHash retryInterval w) = Running) /\
  (forall more : nat,
      outcome (waitForTransaction (S n + more) txHash retryInterval w) = Threw timedout /\
      exchanges (after (waitForTransaction (S n + more) txHash retryInterval w))
      = (exchanges w + S n)%nat).
Proof.
  intros Hnode Hr.
  assert (Hall : forall w0 : world, failed_attempt txHash w0).
  { intros w0. left.
    destruct (Hnode (exchanges w0) (receipt_request txHash)) as (v & Hv & Hn & Ht).
    pose proof (fetchEndpoint_body _ _ _ _ Hv Hn) as Hf. rewrite Ht in Hf.
    eexists. split; [apply receipt_fetch_throws; exact Hf|].
    apply node_style_transient. }
  destruct (session_failed txHash retryInterval Hall n w Hr) as [H1 H2].
  split; [exact H1|]. intros more. rewrite H2. simpl outcome. simpl after.
  now rewrite exchanges_app, exchanges_rounds.
Qed.

Lemma body_rethrow (txHash : string) (retryInterval : Z) (l : locals) (w : world)
    (e : value) :
  fetch_throws txHash (w ++ [Slept retryInterval]) e ->
  terminal e ->
  loop_body txHash retryInterval l w
  = (Throw e, w ++ [Slept retryInterval; Exchanged (receipt_request txHash)])%list.
Proof.
  intros H Ht. enter_body txHash retryInterval w H.
  red in Ht. now rewrite Ht.
Qed.

(** X9: The [catch] of the loop looks at the message only: an exception thrown
    by the fetch itself whose message is REJECTED or NOT_RECEIVED ends the
    session at once, and is the exception the session throws, although no
    receipt was read. *)
Theorem exception_with_terminal_message_is_rethrown
    (txHash : string) (retryInterval : option Z) (w0 w : world) (k fuel : nat)
    (l : locals) (e : value) :
  while_not_onchain k txHash (interval_of retryInterval)
    {| l_retries := retries this; l_onchain := false |} w0 = (Spinning, l, w) ->
  fetch_throws txHash (w ++ [Slept (interval_of retryInterval)]) e ->
  terminal e ->
  waitForTransaction (k + S fuel) txHash retryInterval w0
  = {| outcome := Threw e;
       vars := l;
       after := (w ++ [Slept (interval_of retryInterval);
                       Exchanged (receipt_request txHash)])%list |}.
Proof.
  intros Hk Hf Ht. unfold waitForTransaction.
  rewrite (while_split _ (S fuel) _ _ _ _ _ _ Hk).
  now rewrite (while_raise _ _ _ _ _ _ _
                 (spinning_not_onchain _ _ _ _ _ _ _ Hk)
                 (body_rethrow _ _ _ _ _ Hf Ht)).
Qed.

(** ** More on the dispatcher *)

Lemma fetchEndpoint_nullish_body (method : string) (params : value) (w : world)
    (v : value) :
  node (exchanges w) (build_request (VStr method) params) = Body v ->
  nullish v = true ->
  fst (fetchEndpoint method params w)
  = Throw (typeError "Cannot destructure property 'error' of nullish value").
Proof.
  unfold fetchEndpoint, try_catch, bind, fetch, http.
  intros H Hv; rewrite H; cbn.
  unfold destructure_error_result; rewrite Hv; reflexivity.
Qed.

(** X11: The call returns normally in one case only: the body was decoded to a
    value other than [null] and [undefined] whose [error] member is falsy;
    what it returns is then the [result] member of that value. *)
Theorem fetchEndpoint_returns_iff
    (method : string) (params : value) (w : world) (x : value) :
  fst (fetchEndpoint method params w) = Normal x <->
  exists v : value,
    node (exchanges w) (build_request (VStr method) params) = Body v /\
    nullish v = false /\
    truthy (get v "error") = false /\
    x = get v "result".
Proof.
  destruct (node (exchanges w) (build_request (VStr method) params)) as [e|e|v] eqn:Hn.
  - rewrite (fetchEndpoint_caught _ _ _ _ (or_introl Hn)).
    split; [discriminate | intros (v & Hv & _); discriminate Hv].
  - rewrite (fetchEndpoint_caught _ _ _ _ (or_intror Hn)).
    split; [discriminate | intros (v & Hv & _); discriminate Hv].
  - destruct (nullish v) eqn:Hv.
    + rewrite (fetchEndpoint_nullish_body _ _ _ _ Hn Hv).
      split; [discriminate|].
      intros (v' & Hv' & Hn' & _). injection Hv' as <-. congruence.
    + rewrite (fetchEndpoint_body _ _ _ _ Hn Hv).
      destruct (truthy (get v "error")) eqn:Ht.
      * split; [discriminate|].
        intros (v' & Hv' & _ & Ht' & _). injection Hv' as <-. congruence.
      * split.
        -- intros H. injection H as <-. now exists v.
        -- intros (v' & Hv' & _ & _ & ->). injection Hv' as <-. reflexivity.
Qed.

(** X12: A body decoded to [null] (or [undefined]) makes the call throw a
    [TypeError] from the destructuring, after its one exchange: it is
    neither a result nor an error of the node. *)
Theorem null_body_throws_type_error
    (method : string) (params : value) (w : world) (v : value) :
  node (exchanges w) (build_request (VStr method) params) = Body v ->
  nullish v = true ->
  exists message : string,
    fetchEndpoint method params w
    = (Throw (VError "TypeError" message []),
       w ++ [Exchanged (build_request (VStr method) params)])%list.
Proof.
  intros Hn Hv. eexists.
  rewrite (surjective_pairing (fetchEndpoint method params w)).
  rewrite fetchEndpoint_world, (fetchEndpoint_nullish_body _ _ _ _ Hn Hv).
  reflexivity.
Qed.

(** X13: The handler reads [code] and [message] off whatever truthy value it is
    given.  A string, a number, [true] or an array has neither, so the
    error thrown says undefined twice, whether the value was the [error]
    member of the body or the [response.data] of an exception of the
    transport, and that exception is then lost. *)
Theorem propertyless_error_loses_the_cause
    (method : string) (params : value) (w : world) (d : value) :
  truthy d = true ->
  propertyless d = true ->
  (forall v : value,
      node (exchanges w) (build_request (VStr method) params) = Body v ->
      nullish v = false ->
      get v "error" = d ->
      fst (fetchEndpoint method params w) = Throw (newError "undefined: undefined")) /\
  (forall e : value,
      node (exchanges w) (build_request (VStr method) params) = NetFail e \/
      node (exchanges w) (build_request (VStr method) params) = BodyFail e ->
      response_data e = d ->
      fst (fetchEndpoint method params w) = Throw (newError "undefined: undefined")).
Proof.
  intros Ht Hp. split.
  - intros v Hn Hv Hd.
    rewrite (fetchEndpoint_body _ _ _ _ Hn Hv), Hd, Ht.
    destruct d; try discriminate Hp; reflexivity.
  - intros e Hn Hd.
    rewrite (fetchEndpoint_caught _ _ _ _ Hn), Hd, Ht.
    destruct d; try discriminate Hp; reflexivity.
Qed.

(** ** The endpoint methods *)

Lemma no_exchange_ret {A : Type} (a : A) : no_exchange (ret a).
Proof. now intros w. Qed.

Lemma no_exchange_throw {A : Type} (e : value) : no_exchange (throw (A := A) e).
Proof. now intros w. Qed.

Lemma no_exchange_lift {A : Type} (c : completion A) : no_exchange (lift c).
Proof. now intros w. Qed.

Lemma no_exchange_member (v : value) (k : string) : no_exchange (member v k).
Proof. intros w. unfold member. now destruct (nullish v). Qed.

Lemma no_exchange_bind {A B : Type} (m : M A) (k : A -> M B) :
  no_exchange m -> (forall a : A, no_exchange (k a)) -> no_exchange (bind m k).
Proof.
  intros Hm Hk w. unfold bind. specialize (Hm w).
  destruct (m w) as [[a|e] w']; simpl in Hm; subst w'; [apply Hk | reflexivity].
Qed.

Lemma no_exchange_toHex_toBN (x : value) : no_exchange (toHex_toBN x).
Proof.
  unfold toHex_toBN. apply no_exchange_bind; [apply no_exchange_lift|].
  intros a. apply no_exchange_lift.
Qed.

Lemma at_most_one_fetchEndpoint (method : string) (params : value) :
  at_most_one_exchange (fetchEndpoint method params).
Proof. intros w. right. exists method, params. apply fetchEndpoint_world. Qed.

Lemma at_most_one_after {A B : Type} (m : M A) (k : A -> M B) :
  no_exchange m ->
  (forall a : A, at_most_one_exchange (k a)) ->
  at_most_one_exchange (bind m k).
Proof.
  intros Hm Hk w. unfold bind. specialize (Hm w).
  destruct (m w) as [[a|e] w']; simpl in Hm; subst w'; [apply Hk | now left].
Qed.

Lemma at_most_one_before {A B : Type} (m : M A) (k : A -> M B) :
  at_most_one_exchange m ->
  (forall a : A, no_exchange (k a)) ->
  at_most_one_exchange (bind m k).
Proof.
  intros Hm Hk w. unfold bind. specialize (Hm w).
  destruct (m w) as [[a|e] w']; simpl in Hm.
  - rewrite (Hk a w'). exact Hm.
  - exact Hm.
Qed.

Ltac quiet :=
  repeat first
    [ apply no_exchange_ret | apply no_exchange_throw | apply no_exchange_lift
    | apply no_exchange_member | apply no_exchange_toHex_toBN
    | apply no_exchange_bind; [|intros ?]
    | (intros ?; reflexivity) ].

Ltac one_exchange :=
  repeat first
    [ apply at_most_one_fetchEndpoint
    | apply at_most_one_after; [solve [quiet] | intros ?]
    | apply at_most_one_before; [|intros ?; solve [quiet]] ].

(** X14: No endpoint method makes more than one exchange: each either leaves the
    world as it was (an argument could not be converted, or the method is
    one of the two that are not implemented and always throw) or adds one
    request built by [fetch].  Only [waitForTransaction] makes more. *)
Theorem endpoint_methods_make_at_most_one_exchange :
  at_most_one_exchange getChainId /\
  (forall b, at_most_one_exchange (getBlock b)) /\
  at_most_one_exchange getBlockHashAndNumber /\
  (forall b, at_most_one_exchange (getBlockWithTxHashes b)) /\
  (forall b, at_most_one_exchange (getBlockWithTxs b)) /\
  (forall b a, at_most_one_exchange (getClassHashAt b a)) /\
  (forall a, at_most_one_exchange (getNonce a)) /\
  at_most_one_exchange getPendingTransactions /\
  (forall b, at_most_one_exchange (getStateUpdate b)) /\
  (forall a k b, at_most_one_exchange (getStorageAt a k b)) /\
  (forall t, at_most_one_exchange (getTransaction t)) /\
  (forall t, at_most_one_exchange (getTransactionByHash t)) /\
  (forall b i, at_most_one_exchange (getTransactionByBlockIdAndIndex b i)) /\
  (forall t, at_most_one_exchange (getTransactionReceipt t)) /\
  (forall c, at_most_one_exchange (getClass c)) /\
  (forall a b, at_most_one_exchange (getClassAt a b)) /\
  (forall i b d, at_most_one_exchange (getEstimateFee i b d)) /\
  (forall p, at_most_one_exchange (declareContract p)) /\
  (forall p, at_most_one_exchange (deployContract p)) /\
  (forall f d, at_most_one_exchange (invokeFunction f d)) /\
  (forall c b, at_most_one_exchange (callContract c b)) /\
  (forall t, at_most_one_exchange (traceTransaction t)) /\
  (forall h, at_most_one_exchange (traceBlockTransactions h)) /\
  (forall b, at_most_one_exchange (getTransactionCount b)) /\
  at_most_one_exchange getBlockNumber /\
  at_most_one_exchange getSyncingStats /\
  (forall f, at_most_one_exchange (getEvents f)) /\
  (forall w, getProtocolVersion w
             = (Throw (newError "Pathfinder does not implement this rpc 0.1.0 method"), w)) /\
  (forall a b w, getCode a b w
                 = (Throw (newError "RPC 0.1.0 does not implement getCode function"), w)).
Proof.
  repeat match goal with |- _ /\ _ => split end; intros;
    try reflexivity;
    unfold getChainId, getBlock, getBlockHashAndNumber, getBlockWithTxHashes,
      getBlockWithTxs, getClassHashAt, getNonce, getPendingTransactions,
      getStateUpdate, getStorageAt, getTransaction, getTransactionByHash,
      getTransactionByBlockIdAndIndex, getTransactionReceipt, getClass, getClassAt,
      getEstimateFee, declareContract, deployContract, invokeFunction, callContract,
      traceTransaction, traceBlockTransactions, getTransactionCount, getBlockNumber,
      getSyncingStats, getEvents;
    one_exchange.
Qed.

Lemma then_parser (method : string) (params : value)
    (parser : value -> completion value) (w : world) :
  fst ((res <- fetchEndpoint method params ;; lift (parser res)) w)
  = match fst (fetchEndpoint method params w) with
    | Normal res => parser res
    | Throw e => Throw e
    end.
Proof.
  unfold bind, lift. now destruct (fetchEndpoint method params w) as [[res|e] w'].
Qed.

(** X15: The parsers of [getTransaction], [getBlock] and [getTransactionReceipt]
    see the [result] member of the body, and only when the call succeeded:
    an error reported by the node reaches the caller of these methods as
    the error of the dispatcher, and the parser is not run. *)
Theorem parsers_run_on_results_only (w : world) (v : value) :
  (forall r : request, node (exchanges w) r = Body v) ->
  nullish v = false ->
  (truthy (get v "error") = true ->
   forall (t : value) (b : option BlockReference) (txHash : string),
     let e := newError (toString (get (get v "error") "code") ++ ": "
                        ++ toString (get (get v "error") "message")) in
     fst (getTransaction t w) = Throw e /\
     fst (getBlock b w) = Throw e /\
     fst (getTransactionReceipt txHash w) = Throw e) /\
  (truthy (get v "error") = false ->
   forall (t : value) (b : option BlockReference) (txHash : string),
     fst (getTransaction t w) = parseGetTransactionResponse (get v "result") /\
     fst (getBlock b w) = parseGetBlockResponse (get v "result") /\
     fst (getTransactionReceipt txHash w)
     = parseGetTransactionReceiptResponse (get v "result")).
Proof.
  intros Hn Hv.
  split; intros Ht t b txHash; cbv zeta;
    unfold getTransaction, getTransactionByHash, getBlock, getBlockWithTxHashes,
      getTransactionReceipt;
    rewrite !then_parser, !(fetchEndpoint_body _ _ _ _ (Hn _) Hv), Ht;
    now repeat split.
Qed.

Lemma bind_cong {A B : Type} (m : M A) (k k' : A -> M B) :
  (forall (a : A) (w : world), k a w = k' a w) ->
  forall w : world, bind m k w = bind m k' w.
Proof.
  intros H w. unfold bind. destruct (m w) as [[a|e] w']; [apply H | reflexivity].
Qed.

Lemma bind_member (v : value) (k : string) {B : Type} (f : value -> M B) (w : world) :
  nullish v = false ->
  bind (member v k) f w = f (get v k) w.
Proof. intros H. unfold bind, member. now rewrite H. Qed.

Lemma or_else_falsy (a b : value) : truthy a = false -> or_else a b = b.
Proof. intros H. unfold or_else. now rewrite H. Qed.

(** X16: [x || 0]: a fee or a version that is left out, or is 0, the empty
    string, [null] or [false], is sent as the conversion of 0.  So
    [invokeFunction] with such details is [invokeFunction] with both set to
    0, and likewise for [getEstimateFee] (whose details may also be left
    out altogether) and for the version of [declareContract]. *)
Theorem falsy_fee_and_version_are_sent_as_zero (w : world) :
  (forall functionInvocation details : value,
      nullish details = false ->
      truthy (get details "maxFee") = false ->
      truthy (get details "version") = false ->
      invokeFunction functionInvocation details w
      = invokeFunction functionInvocation
          (VObj [("maxFee", VNum 0); ("version", VNum 0)]) w) /\
  (forall (invocation : value) (b : option BlockReference) (invocationDetails : value),
      truthy (get_opt invocationDetails "maxFee") = false ->
      truthy (get_opt invocationDetails "version") = false ->
      getEstimateFee invocation b invocationDetails w
      = getEstimateFee invocation b
          (VObj [("maxFee", VNum 0); ("version", VNum 0)]) w) /\
  (forall payload : value,
      nullish payload = false ->
      truthy (get payload "version") = false ->
      declareContract payload w
      = declareContract
          (VObj [("contract", get payload "contract"); ("version", VNum 0)]) w).
Proof.
  repeat split.
  - intros fi d Hd Hf Hv. unfold invokeFunction.
    do 7 (apply bind_cong; intros ?; intros ?).
    rewrite !bind_member by (exact Hd || reflexivity).
    rewrite (or_else_falsy _ _ Hf). cbn [get lookup String.eqb Ascii.eqb Bool.eqb or_undefined].
    apply bind_cong; intros ? ?.
    rewrite !bind_member by (exact Hd || reflexivity).
    rewrite (or_else_falsy _ _ Hv). reflexivity.
  - intros i b d Hf Hv. unfold getEstimateFee.
    do 7 (apply bind_cong; intros ?; intros ?).
    assert (E : forall k : string,
               get_opt match d with VUndefined => VObj [] | _ => d end k = get_opt d k)
      by (intros k; now destruct d).
    rewrite !E, (or_else_falsy _ _ Hf), (or_else_falsy _ _ Hv).
    reflexivity.
  - intros p Hp Hv. unfold declareContract.
    rewrite !bind_member by (exact Hp || reflexivity).
    cbn [get lookup String.eqb Ascii.eqb Bool.eqb or_undefined].
    do 4 (apply bind_cong; intros ?; intros ?).
    now rewrite (or_else_falsy _ _ Hv).
Qed.

(** X17: [addressSalt ?? randomAddress()]: a salt that is given is the salt sent,
    even 0 or the empty string; only [null] and [undefined] are replaced by
    a random address.  When the conversions succeed the one request of
    [deployContract] carries that salt, the converted calldata and the
    three members of the parsed contract. *)
Theorem deployContract_request
    (payload contractDefinition calldata : value) (w : world) :
  nullish payload = false ->
  parseContract (get payload "contract") = Normal contractDefinition ->
  nullish contractDefinition = false ->
  bigNumberishArrayToHexadecimalStringArray
    (nullish_else (get payload "constructorCalldata") (VArr [])) = Normal calldata ->
  snd (deployContract payload w)
  = (w ++ [Exchanged
             (build_request (VStr "starknet_addDeployTransaction")
                (VObj [("contract_address_salt",
                        if nullish (get payload "addressSalt")
                        then randomAddress w
                        else get payload "addressSalt");
                       ("constructor_calldata", calldata);
                       ("contract_definition",
                        VObj [("program", get contractDefinition "program");
                              ("entry_points_by_type",
                               get contractDefinition "entry_points_by_type");
                              ("abi", get contractDefinition "abi")])]))])%list.
Proof.
  intros Hp Hc Hd Hs. unfold deployContract.
  rewrite !bind_member by exact Hp.
  unfold bind at 1, lift at 1. rewrite Hc.
  unfold bind at 1.
  unfold bind at 1, lift at 1. rewrite Hs.
  rewrite !bind_member by exact Hd.
  rewrite fetchEndpoint_world. reflexivity.
Qed.

(** X10: A success state ends the wait at whatever pass it is seen, whatever is
    left of the budget (the counter may even be below 0): the session
    leaves the loop after that fetch, suspends once more and returns. *)
Theorem success_at_any_pass_returns
    (txHash : string) (retryInterval : option Z) (w0 w : world) (k fuel : nat)
    (l : locals) (res : value) :
  while_not_onchain k txHash (interval_of retryInterval)
    {| l_retries := retries this; l_onchain := false |} w0 = (Spinning, l, w) ->
  fetch_returns txHash (w ++ [Slept (interval_of retryInterval)]) res ->
  success_status res ->
  waitForTransaction (k + S fuel) txHash retryInterval w0
  = {| outcome := Returned VUndefined;
       vars := {| l_retries := l_retries l - 1; l_onchain := true |};
       after := (w ++ [Slept (interval_of retryInterval);
                       Exchanged (receipt_request txHash);
                       Slept (interval_of retryInterval)])%list |}.
Proof.
  intros Hk Hf Hs. unfold waitForTransaction.
  rewrite (while_split _ (S fuel) _ _ _ _ _ _ Hk).
  rewrite (while_pass _ _ _ _ _ _ _
             (spinning_not_onchain _ _ _ _ _ _ _ Hk)
             (body_success _ _ _ _ _ Hf Hs)).
  rewrite while_exited by reflexivity.
  unfold wait; simpl. now rewrite <- app_assoc.
Qed.

(** X18: [getStorageAt] sends the key as [toHex(toBN(key))]; when either
    conversion throws, the method throws that exception and the node is
    not contacted. *)
Theorem getStorageAt_converts_the_key
    (contractAddress key : value) (blockIdentifier : option BlockReference) (w : world) :
  (forall bn hex : value,
      toBN key = Normal bn ->
      toHex bn = Normal hex ->
      snd (getStorageAt contractAddress key blockIdentifier w)
      = (w ++ [Exchanged
                 (build_request (VStr "starknet_getStorageAt")
                    (VObj [("contract_address", contractAddress);
                           ("key", hex);
                           ("block_id", block_id_of blockIdentifier)]))])%list) /\
  (forall e : value,
      toBN key = Throw e \/
      (exists bn : value, toBN key = Normal bn /\ toHex bn = Throw e) ->
      getStorageAt contractAddress key blockIdentifier w = (Throw e, w)).
Proof.
  split.
  - intros bn hex Hb Hh. unfold getStorageAt, toHex_toBN, bind, lift.
    rewrite Hb, Hh. apply fetchEndpoint_world.
  - intros e [Hb|(bn & Hb & Hh)]; unfold getStorageAt, toHex_toBN, bind, lift.
    + now rewrite Hb.
    + now rewrite Hb, Hh.
Qed.

End Provider.

(** ** The statements on the scenarios *)

Lemma always_returns (status : string) (this : RpcProvider) (txHash : string) (w : world) :
  fetch_returns plain_stringify keep (always status) this txHash w (receipt status).
Proof. reflexivity. Qed.

Lemma unreachable_throws (this : RpcProvider) (txHash : string) (w : world) :
  fetch_throws plain_stringify keep unreachable this txHash w refused.
Proof. reflexivity. Qed.

Lemma transport_failure_witness :
  unreachable (exchanges [])
    (build_request plain_stringify (provider_with 200) (VStr "starknet_chainId") VUndefined)
  = NetFail refused /\
  fst (fetchEndpoint plain_stringify unreachable (provider_with 200)
         "starknet_chainId" VUndefined [])
  = Throw refused.
Proof.
  split; [reflexivity|].
  rewrite (transport_failure_passes_errorHandler plain_stringify unreachable
             (provider_with 200) "starknet_chainId" VUndefined [] refused
             (or_introl eq_refl)).
  reflexivity.
Defined.

(** C2, as the specification has it, fails: an exception of the transport
    that carries [response.data] comes out of the call as the very error
    that a node-reported [error] member produces. *)
Lemma gateway_failure_reads_as_node_error :
  behind_gateway (exchanges [])
    (build_request plain_stringify (provider_with 200) (VStr "starknet_chainId") VUndefined)
  = NetFail gateway_failure /\
  fst (fetchEndpoint plain_stringify behind_gateway (provider_with 200)
         "starknet_chainId" VUndefined [])
  = Throw (newError "502: Bad Gateway") /\
  fst (fetchEndpoint plain_stringify (node_says 502 "Bad Gateway") (provider_with 200)
         "starknet_chainId" VUndefined [])
  = Throw (newError "502: Bad Gateway").
Proof. repeat split. Qed.

Lemma node_error_message_witness :
  node_says 21 "Invalid params" (exchanges [])
    (build_request plain_stringify (provider_with 200) (VStr "starknet_getNonce")
       (VObj [("contract_address", VStr "0x1")]))
  = Body (VObj [("error", VObj [("code", VNum 21); ("message", VStr "Invalid params")])]) /\
  fst (fetchEndpoint plain_stringify (node_says 21 "Invalid params") (provider_with 200)
         "starknet_getNonce" (VObj [("contract_address", VStr "0x1")]) [])
  = Throw (newError "21: Invalid params").
Proof.
  split; [reflexivity|].
  exact (proj1 (proj2 (node_error_message plain_stringify (node_says 21 "Invalid params")
                         (provider_with 200) "starknet_getNonce"
                         (VObj [("contract_address", VStr "0x1")]) [] _ eq_refl))
           _ 21 "Invalid params" eq_refl eq_refl eq_refl).
Defined.

(** The handler tests truthiness: an [error] member that is an object always
    raises; a member such as the number 0 would not. *)
Lemma falsy_error_member_is_ignored :
  fst (fetchEndpoint plain_stringify
         (fun _ _ => Body (VObj [("error", VNum 0); ("result", VStr "0x1")]))
         (provider_with 200) "starknet_chainId" VUndefined [])
  = Normal (VStr "0x1").
Proof. reflexivity. Qed.

Lemma result_returned_unchanged_witness :
  fst (fetchEndpoint plain_stringify (fun _ _ => reply (VArr [VNum 1; VStr "0x2"]))
         (provider_with 200) "starknet_pendingTransactions" VUndefined [])
  = Normal (VArr [VNum 1; VStr "0x2"]).
Proof.
  exact (result_returned_unchanged plain_stringify
           (fun _ _ => reply (VArr [VNum 1; VStr "0x2"]))
           (provider_with 200) "starknet_pendingTransactions" VUndefined []
           [("result", VArr [VNum 1; VStr "0x2"])] (VArr [VNum 1; VStr "0x2"])
           eq_refl eq_refl eq_refl).
Defined.

(** C1: on a node that answers RECEIVED for ever, with a budget of 3, the
    session is still in its loop after any number of passes: as many
    fetches as passes, the counter at 3 minus the passes (below zero after
    the fourth), and never the timed-out error. *)
Theorem received_never_exhausts :
  forall fuel : nat,
    let s := waitForTransaction plain_stringify keep (always "RECEIVED")
               (provider_with 3) fuel "0x1" None [] in
    outcome s = Running /\
    l_retries (vars s) = 3 - Z.of_nat fuel /\
    exchanges (after s) = fuel.
Proof.
  intros fuel s. subst s.
  rewrite (session_nonterminal plain_stringify keep (always "RECEIVED")
             (provider_with 3) "0x1" None).
  - simpl. now rewrite exchanges_rounds.
  - intros w. exists (receipt "RECEIVED"). split.
    + apply always_returns.
    + repeat split.
Qed.

(** The sibling path: when the fetches throw, a budget of 3 ends the
    session after exactly 4 fetches. *)
Lemma unreachable_exhausts_after_four :
  forall fuel : nat,
    let s := waitForTransaction plain_stringify keep unreachable
               (provider_with 3) (4 + fuel) "0x1" None [] in
    outcome s = Threw timedout /\ exchanges (after s) = 4%nat /\ sleeps (after s) = 4%nat.
Proof.
  intros fuel s. subst s.
  rewrite (session_transient plain_stringify keep unreachable
             (provider_with 3) "0x1" None).
  - repeat split.
  - intros w. exists refused. split; [apply unreachable_throws | reflexivity].
  - reflexivity.
Qed.

Lemma success_on_first_fetch_witness :
  fetch_returns plain_stringify keep (always "ACCEPTED_ON_L2") (provider_with 200)
    "0x1" ([] ++ [Slept (interval_of (Some 5000))]) (receipt "ACCEPTED_ON_L2") /\
  success_status (receipt "ACCEPTED_ON_L2") /\
  sleeps (after (waitForTransaction plain_stringify keep (always "ACCEPTED_ON_L2")
                   (provider_with 200) 7 "0x1" (Some 5000) []))
  = 2%nat.
Proof.
  split; [reflexivity|]. split; [split; reflexivity|].
  rewrite (success_on_first_fetch plain_stringify keep (always "ACCEPTED_ON_L2")
             (provider_with 200) "0x1" (Some 5000) [] 6 (receipt "ACCEPTED_ON_L2")
             eq_refl (conj eq_refl eq_refl)).
  reflexivity.
Defined.

(** C4, as the specification has it, fails: after a first fetch that
    answers ACCEPTED_ON_L1 the session returns [undefined], not the
    receipt, and its counter has gone from 3 to 2. *)
Lemma accepted_session_returns_no_receipt :
  outcome (waitForTransaction plain_stringify keep (always "ACCEPTED_ON_L1")
             (provider_with 3) 1 "0x1" None [])
  = Returned VUndefined /\
  outcome (waitForTransaction plain_stringify keep (always "ACCEPTED_ON_L1")
             (provider_with 3) 1 "0x1" None [])
  <> Returned (receipt "ACCEPTED_ON_L1") /\
  l_retries (vars (waitForTransaction plain_stringify keep (always "ACCEPTED_ON_L1")
                     (provider_with 3) 1 "0x1" None []))
  = 2 /\
  sleeps (after (waitForTransaction plain_stringify keep (always "ACCEPTED_ON_L1")
                   (provider_with 3) 1 "0x1" None []))
  = 2%nat.
Proof. repeat split. discriminate. Qed.

Lemma terminal_rejection_witness :
  while_not_onchain plain_stringify keep rejected_second (provider_with 3) 1 "0x1"
    (interval_of None) {| l_retries := retries (provider_with 3); l_onchain := false |} []
  = (Spinning, {| l_retries := 2; l_onchain := false |},
     [Slept 8000; Exchanged (receipt_request plain_stringify (provider_with 3) "0x1")]) /\
  failure_status (receipt "REJECTED") "REJECTED" /\
  waitForTransaction plain_stringify keep rejected_second (provider_with 3) 4 "0x1" None []
  = {| outcome := Threw (VError "Error" "REJECTED" [("response", receipt "REJECTED")]);
       vars := {| l_retries := 2; l_onchain := false |};
       after := [Slept 8000; Exchanged (receipt_request plain_stringify (provider_with 3) "0x1");
                 Slept 8000; Exchanged (receipt_request plain_stringify (provider_with 3) "0x1")] |}.
Proof.
  split; [reflexivity|]. split; [repeat split|].
  exact (terminal_rejection_is_immediate plain_stringify keep rejected_second
           (provider_with 3) "0x1" None []
           [Slept 8000; Exchanged (receipt_request plain_stringify (provider_with 3) "0x1")]
           1 2 {| l_retries := 2; l_onchain := false |}
           (receipt "REJECTED") "REJECTED"
           eq_refl eq_refl (conj eq_refl (conj eq_refl eq_refl))).
Defined.

Lemma constructor_keeps_nonzero (url : string) (r : Z) :
  r <> 0 -> retries (constructor {| opt_nodeUrl := url; opt_retries := Some r |}) = r.
Proof.
  intros H. unfold constructor; simpl.
  now destruct (Z.eqb_spec r 0).
Qed.

(** C10: options whose [retries] is 0, or is left out, give a provider whose
    budget is 200, and [waitForTransaction] on it is the session of a
    provider configured with 200: on a node that cannot be reached it
    gives up after exactly 201 fetches. *)
Theorem zero_retries_option_is_replaced :
  forall (stringify : value -> string) (parse : value -> completion value)
         (node : nat -> request -> exchange) (url txHash : string)
         (retryInterval : option Z) (fuel : nat) (w : world),
    retries (constructor {| opt_nodeUrl := url; opt_retries := Some 0 |}) = 200 /\
    retries (constructor {| opt_nodeUrl := url; opt_retries := None |}) = 200 /\
    waitForTransaction stringify parse node
      (constructor {| opt_nodeUrl := url; opt_retries := Some 0 |})
      fuel txHash retryInterval w
    = waitForTransaction stringify parse node
        (constructor {| opt_nodeUrl := url; opt_retries := Some 200 |})
        fuel txHash retryInterval w /\
    outcome (waitForTransaction plain_stringify keep unreachable
               (constructor {| opt_nodeUrl := url; opt_retries := Some 0 |})
               (201 + fuel) txHash retryInterval w)
    = Threw timedout /\
    exchanges (after (waitForTransaction plain_stringify keep unreachable
                        (constructor {| opt_nodeUrl := url; opt_retries := Some 0 |})
                        (201 + fuel) txHash retryInterval w))
    = (exchanges w + 201)%nat.
Proof.
  intros stringify parse node url txHash retryInterval fuel w.
  assert (Hall : forall w0 : world, exists e : value,
             fetch_throws plain_stringify keep unreachable
               (constructor {| opt_nodeUrl := url; opt_retries := Some 0 |}) txHash w0 e
             /\ transient e).
  { intros w0. exists refused. split; [apply unreachable_throws | reflexivity]. }
  split; [reflexivity|]. split; [reflexivity|]. split; [reflexivity|].
  split.
  - now rewrite (session_transient _ _ _ _ txHash retryInterval Hall 200 fuel w eq_refl).
  - rewrite (session_transient _ _ _ _ txHash retryInterval Hall 200 fuel w eq_refl).
    simpl after. now rewrite exchanges_app, exchanges_rounds.
Qed.

(** ** The further statements on the scenarios *)

Lemma fetchEndpoint_returns_witness :
  fst (fetchEndpoint plain_stringify (fun _ _ => reply (VNum 7)) (provider_with 200)
         "starknet_blockNumber" VUndefined [])
  = Normal (VNum 7).
Proof.
  apply (proj2 (fetchEndpoint_returns_iff plain_stringify (fun _ _ => reply (VNum 7))
                  (provider_with 200) "starknet_blockNumber" VUndefined [] (VNum 7))).
  exists (VObj [("result", VNum 7)]). now repeat split.
Defined.

Lemma null_body_witness :
  null_bodies (exchanges [])
    (build_request plain_stringify (provider_with 200) (VStr "starknet_chainId") VUndefined)
  = Body VNull /\
  nullish VNull = true /\
  exists message : string,
    fetchEndpoint plain_stringify null_bodies (provider_with 200)
      "starknet_chainId" VUndefined []
    = (Throw (VError "TypeError" message []),
       [] ++ [Exchanged (build_request plain_stringify (provider_with 200)
                           (VStr "starknet_chainId") VUndefined)])%list.
Proof.
  split; [reflexivity|]. split; [reflexivity|].
  exact (null_body_throws_type_error plain_stringify null_bodies (provider_with 200)
           "starknet_chainId" VUndefined [] VNull eq_refl eq_refl).
Defined.

Lemma propertyless_error_witness :
  truthy html_page = true /\
  propertyless html_page = true /\
  response_data html_failure = html_page /\
  fst (fetchEndpoint plain_stringify behind_html_gateway (provider_with 200)
         "starknet_chainId" VUndefined [])
  = Throw (newError "undefined: undefined").
Proof.
  split; [reflexivity|]. split; [reflexivity|]. split; [reflexivity|].
  exact (proj2 (propertyless_error_loses_the_cause plain_stringify behind_html_gateway
                  (provider_with 200) "starknet_chainId" VUndefined [] html_page
                  eq_refl eq_refl)
           html_failure (or_introl eq_refl) eq_refl).
Defined.

Lemma session_throws_witness :
  outcome (waitForTransaction plain_stringify keep rejected_second (provider_with 3)
             4 "0x1" None [])
  = Threw (VError "Error" "REJECTED" [("response", receipt "REJECTED")]) /\
  (terminal (VError "Error" "REJECTED" [("response", receipt "REJECTED")]) \/
   VError "Error" "REJECTED" [("response", receipt "REJECTED")] = timedout).
Proof.
  split; [reflexivity|].
  exact (session_throws_terminal_or_timedout plain_stringify keep rejected_second
           (provider_with 3) 4 "0x1" None [] _ eq_refl).
Defined.

Lemma timedout_witness :
  outcome (waitForTransaction plain_stringify keep unreachable (provider_with 3)
             9 "0x1" None [])
  = Threw timedout /\
  Z.of_nat (exchanges (after (waitForTransaction plain_stringify keep unreachable
                                (provider_with 3) 9 "0x1" None [])))
  = Z.of_nat (exchanges []) + retries (provider_with 3) + 1.
Proof.
  split; [reflexivity|].
  exact (proj1 (proj2 (proj2
           (timedout_after_budget_plus_one plain_stringify keep unreachable
              (provider_with 3) 9 "0x1" None [] eq_refl)))).
Defined.

Lemma unreachable_always_throws (this : RpcProvider) (txHash : string) :
  forall w0 : world, exists e : value,
    fetch_throws plain_stringify keep unreachable this txHash w0 e /\ transient e.
Proof.
  intros w0. exists refused. split; [apply unreachable_throws | reflexivity].
Qed.

Lemma failing_fetches_witness :
  (forall w0 : world, exists e : value,
      fetch_throws plain_stringify keep unreachable (provider_with 2) "0x1" w0 e
      /\ transient e) /\
  retries (provider_with 2) = Z.of_nat 2 /\
  outcome (waitForTransaction plain_stringify keep unreachable (provider_with 2)
             2 "0x1" None [])
  = Running /\
  exchanges (after (waitForTransaction plain_stringify keep unreachable (provider_with 2)
                      (3 + 0) "0x1" None []))
  = (exchanges [] + 3)%nat.
Proof.
  split; [apply unreachable_always_throws|]. split; [reflexivity|].
  destruct (failing_fetches_use_budget_plus_one plain_stringify keep unreachable
              (provider_with 2) "0x1" None 2 []
              (unreachable_always_throws (provider_with 2) "0x1") eq_refl) as [H1 H2].
  split; [apply H1; lia | apply (H2 O)].
Defined.

Lemma null_results_always_missing (this : RpcProvider) (txHash : string) :
  forall w0 : world, exists res : value,
    fetch_returns plain_stringify keep null_results this txHash w0 res
    /\ nullish res = true.
Proof. intros w0. exists VNull. split; reflexivity. Qed.

Lemma missing_receipts_witness :
  (forall w0 : world, exists res : value,
      fetch_returns plain_stringify keep null_results (provider_with 1) "0x1" w0 res
      /\ nullish res = true) /\
  retries (provider_with 1) = Z.of_nat 1 /\
  outcome (waitForTransaction plain_stringify keep null_results (provider_with 1)
             (2 + 3) "0x1" None [])
  = Threw timedout.
Proof.
  split; [apply null_results_always_missing|]. split; [reflexivity|].
  exact (proj1 (proj2 (missing_receipts_use_budget_plus_one plain_stringify keep
                         null_results (provider_with 1) "0x1" None 1 []
                         (null_results_always_missing (provider_with 1) "0x1") eq_refl)
                 3%nat)).
Defined.

Lemma unreachable_always_fails (this : RpcProvider) (txHash : string) :
  forall w0 : world, failed_attempt plain_stringify keep unreachable this txHash w0.
Proof. intros w0. left. apply unreachable_always_throws. Qed.

Lemma negative_budget_witness :
  retries (constructor {| opt_nodeUrl := "http://localhost:9545";
                          opt_retries := Some (-1) |}) < 0 /\
  outcome (waitForTransaction plain_stringify keep unreachable
             (constructor {| opt_nodeUrl := "http://localhost:9545";
                             opt_retries := Some (-1) |})
             50 "0x1" None [])
  = Running.
Proof.
  split; [reflexivity|].
  exact (proj1 (negative_budget_never_times_out plain_stringify keep unreachable
                  (constructor {| opt_nodeUrl := "http://localhost:9545";
                                  opt_retries := Some (-1) |})
                  "0x1" None 50 []
                  (unreachable_always_fails _ "0x1") eq_refl)).
Defined.

Lemma node_says_always_errors (code : Z) (message : string) :
  forall (i : nat) (r : request), exists v : value,
    node_says code message i r = Body v /\ nullish v = false /\
    truthy (get v "error") = true.
Proof. intros i r. eexists. split; [reflexivity|]. split; reflexivity. Qed.

Lemma node_errors_witness :
  retries (provider_with 1) = Z.of_nat 1 /\
  outcome (waitForTransaction plain_stringify keep
             (node_says 25 "Transaction hash not found") (provider_with 1)
             (2 + 0) "0x1" None [])
  = Threw timedout /\
  exchanges (after (waitForTransaction plain_stringify keep
                      (node_says 25 "Transaction hash not found") (provider_with 1)
                      (2 + 0) "0x1" None []))
  = (exchanges [] + 2)%nat.
Proof.
  split; [reflexivity|].
  exact (proj2 (node_errors_use_budget_plus_one plain_stringify keep
                  (node_says 25 "Transaction hash not found") (provider_with 1)
                  "0x1" None 1 []
                  (node_says_always_errors 25 "Transaction hash not found") eq_refl)
           O).
Defined.

Lemma exception_rethrown_witness :
  terminal named_not_received /\
  waitForTransaction plain_stringify keep fails_with_status_name (provider_with 3)
    (1 + 3) "0x1" None []
  = {| outcome := Threw named_not_received;
       vars := {| l_retries := 2; l_onchain := false |};
       after := [Slept 8000; Exchanged (receipt_request plain_stringify (provider_with 3) "0x1");
                 Slept 8000; Exchanged (receipt_request plain_stringify (provider_with 3) "0x1")] |}.
Proof.
  split; [reflexivity|].
  exact (exception_with_terminal_message_is_rethrown plain_stringify keep
           fails_with_status_name (provider_with 3) "0x1" None []
           [Slept 8000; Exchanged (receipt_request plain_stringify (provider_with 3) "0x1")]
           1 2 {| l_retries := 2; l_onchain := false |} named_not_received
           eq_refl eq_refl eq_refl).
Defined.

Lemma success_at_any_pass_witness :
  success_status (receipt "ACCEPTED_ON_L2") /\
  outcome (waitForTransaction plain_stringify keep
             (fun n _ => match n with
                         | O => reply (receipt "RECEIVED")
                         | S _ => reply (receipt "ACCEPTED_ON_L2")
                         end)
             (provider_with 3) (1 + 3) "0x1" None [])
  = Returned VUndefined.
Proof.
  split; [split; reflexivity|].
  rewrite (success_at_any_pass_returns plain_stringify keep
             (fun n _ => match n with
                         | O => reply (receipt "RECEIVED")
                         | S _ => reply (receipt "ACCEPTED_ON_L2")
                         end)
             (provider_with 3) "0x1" None []
             [Slept 8000; Exchanged (receipt_request plain_stringify (provider_with 3) "0x1")]
             1 2 {| l_retries := 2; l_onchain := false |} (receipt "ACCEPTED_ON_L2")
             eq_refl eq_refl (conj eq_refl eq_refl)).
  reflexivity.
Defined.

Lemma getStorageAt_witness :
  as_is (VNum 5) = Normal (VNum 5) /\
  snd (getStorageAt plain_stringify unreachable (provider_with 200) as_is as_is
         (VStr "0x1") (VNum 5) None [])
  = [Exchanged
       (build_request plain_stringify (provider_with 200) (VStr "starknet_getStorageAt")
          (VObj [("contract_address", VStr "0x1"); ("key", VNum 5);
                 ("block_id", VStr "pending")]))].
Proof.
  split; [reflexivity|].
  exact (proj1 (getStorageAt_converts_the_key plain_stringify unreachable
                  (provider_with 200) as_is as_is (VStr "0x1") (VNum 5) None [])
           (VNum 5) (VNum 5) eq_refl eq_refl).
Defined.

Lemma parsers_witness :
  (forall r : request, node_says 21 "Invalid params" (exchanges []) r
                       = Body (VObj [("error", VObj [("code", VNum 21);
                                                     ("message", VStr "Invalid params")])])) /\
  fst (getTransaction plain_stringify (node_says 21 "Invalid params") (provider_with 200)
         as_is (VStr "0x1") [])
  = Throw (newError "21: Invalid params").
Proof.
  split; [reflexivity|].
  exact (proj1 (proj1 (parsers_run_on_results_only plain_stringify keep
                         (node_says 21 "Invalid params") (provider_with 200) as_is as_is
                         [] _ (fun _ => eq_refl) eq_refl)
                 eq_refl (VStr "0x1") None "0x1")).
Defined.

Lemma falsy_fee_witness :
  truthy (get (VObj [("maxFee", VStr "")]) "maxFee") = false /\
  invokeFunction plain_stringify unreachable (provider_with 200) as_is as_is as_is as_is as_is
    transfer (VObj [("maxFee", VStr "")]) []
  = invokeFunction plain_stringify unreachable (provider_with 200) as_is as_is as_is as_is as_is
      transfer (VObj [("maxFee", VNum 0); ("version", VNum 0)]) [].
Proof.
  split; [reflexivity|].
  exact (proj1 (falsy_fee_and_version_are_sent_as_zero plain_stringify unreachable
                  (provider_with 200) as_is as_is as_is as_is as_is as_is as_is [])
           transfer (VObj [("maxFee", VStr "")]) eq_refl eq_refl eq_refl).
Defined.

Lemma deployContract_witness :
  nullish deploy_payload = false /\
  nullish (get deploy_payload "addressSalt") = false /\
  snd (deployContract plain_stringify unreachable (provider_with 200) as_is as_is
         fixed_address deploy_payload [])
  = [Exchanged
       (build_request plain_stringify (provider_with 200)
          (VStr "starknet_addDeployTransaction")
          (VObj [("contract_address_salt", VNum 0);
                 ("constructor_calldata", VArr []);
                 ("contract_definition",
                  VObj [("program", VStr "0xc0de");
                        ("entry_points_by_type", VObj []);
                        ("abi", VArr [])])]))].
Proof.
  split; [reflexivity|]. split; [reflexivity|].
  exact (deployContract_request plain_stringify unreachable (provider_with 200)
           as_is as_is fixed_address deploy_payload contract_text (VArr []) []
           eq_refl eq_refl eq_refl eq_refl).
Defined.

(** X19: The constructor never stores a budget of 0, so a session on a
    constructed provider cannot time out at its first fetch: when it throws
    the timed-out error it has made at least two. *)
Theorem constructed_provider_times_out_after_two_fetches_at_least
    (stringify : value -> string) (parse : value -> completion value)
    (node : nat -> request -> exchange) (options : RpcProviderOptions)
    (fuel : nat) (txHash : string) (retryInterval : option Z) (w : world) :
  retries (constructor options) <> 0 /\
  (outcome (waitForTransaction stringify parse node (constructor options)
              fuel txHash retryInterval w) = Threw timedout ->
   (exchanges w + 2 <=
    exchanges (after (waitForTransaction stringify parse node (constructor options)
                        fuel txHash retryInterval w)))%nat).
Proof.
  assert (H0 : retries (constructor options) <> 0).
  { unfold constructor; simpl. destruct (opt_retries options) as [r|]; [|lia].
    simpl. destruct (Z.eqb_spec r 0); simpl; lia. }
  split; [exact H0|]. intros H.
  destruct (session_inv stringify parse node (constructor options)
              fuel txHash retryInterval w) as (k & _ & Hx).
  rewrite H in Hx. destruct Hx as (H1 & -> & _ & [Ht|[_ Hz]]).
  - now destruct timedout_not_terminal.
  - rewrite exchanges_app, exchanges_rounds. lia.
Qed.

Lemma constructed_provider_witness :
  outcome (waitForTransaction plain_stringify keep unreachable
             (constructor {| opt_nodeUrl := "http://localhost:9545"; opt_retries := Some 1 |})
             5 "0x1" None [])
  = Threw timedout /\
  (exchanges [] + 2 <=
   exchanges (after (waitForTransaction plain_stringify keep unreachable
                       (constructor {| opt_nodeUrl := "http://localhost:9545";
                                       opt_retries := Some 1%Z |})
                       5 "0x1" None [])))%nat.
Proof.
  split; [reflexivity|].
  exact (proj2 (constructed_provider_times_out_after_two_fetches_at_least
                  plain_stringify keep unreachable
                  {| opt_nodeUrl := "http://localhost:9545"; opt_retries := Some 1 |}
                  5 "0x1" None [])
           eq_refl).
Defined.

(** ** A provider configured with [retries: 0] *)

(** C3 (as amended): options whose [retries] is 0 give a provider whose
    budget is 200.  A session on it suspends once and fetches once before
    anything else, and never ends without having done so.  If that first
    fetch returns a success state (PENDING is one of them) the session
    returns after one more suspension.  If the fetches keep throwing
    exceptions that are no terminal status, the session is still polling
    after 200 passes and throws the timed-out error in pass 201. *)
Theorem zero_retries_session
    (stringify : value -> string) (parse : value -> completion value)
    (node : nat -> request -> exchange) (options : RpcProviderOptions)
    (txHash : string) (retryInterval : option Z) (w : world) :
  opt_retries options = Some 0 ->
  retries (constructor options) = 200 /\
  (forall (fuel : nat) (res : value),
      fetch_returns stringify parse node (constructor options) txHash
        (w ++ [Slept (interval_of retryInterval)]) res ->
      success_status res ->
      outcome (waitForTransaction stringify parse node (constructor options)
                 (S fuel) txHash retryInterval w)
      = Returned VUndefined /\
      after (waitForTransaction stringify parse node (constructor options)
               (S fuel) txHash retryInterval w)
      = (w ++ [Slept (interval_of retryInterval);
               Exchanged (receipt_request stringify (constructor options) txHash);
               Slept (interval_of retryInterval)])%list) /\
  ((forall w0 : world, exists e : value,
       fetch_throws stringify parse node (constructor options) txHash w0 e /\
       transient e) ->
   (forall fuel : nat,
       (fuel <= 200)%nat ->
       outcome (waitForTransaction stringify parse node (constructor options)
                  fuel txHash retryInterval w)
       = Running) /\
   (forall more : nat,
       outcome (waitForTransaction stringify parse node (constructor options)
                  (201 + more) txHash retryInterval w)
       = Threw timedout /\
       exchanges (after (waitForTransaction stringify parse node (constructor options)
                           (201 + more) txHash retryInterval w))
       = (exchanges w + 201)%nat)) /\
  (forall fuel : nat,
      outcome (waitForTransaction stringify parse node (constructor options)
                 fuel txHash retryInterval w) <> Running ->
      exists rest : world,
        after (waitForTransaction stringify parse node (constructor options)
                 fuel txHash retryInterval w)
        = (w ++ [Slept (interval_of retryInterval);
                 Exchanged (receipt_request stringify (constructor options) txHash)]
             ++ rest)%list).
Proof.
  intros Ho.
  assert (Hr : retries (constructor options) = 200)
    by (unfold constructor; rewrite Ho; reflexivity).
  split; [exact Hr|]. split; [|split].
  - intros fuel res Hf Hs.
    rewrite (success_on_first_fetch_aux _ _ _ _ _ _ _ fuel _ Hf Hs). now split.
  - intros Hall.
    assert (Hall' : forall w0 : world,
               failed_attempt stringify parse node (constructor options) txHash w0)
      by (intros w0; left; apply Hall).
    assert (Hn : retries (constructor options) = Z.of_nat 200)
      by (rewrite Hr; reflexivity).
    destruct (session_failed _ _ _ _ txHash retryInterval Hall' 200%nat w Hn) as [H1 H2].
    split; [exact H1|]. intros more.
    change (201 + more)%nat with (S 200 + more)%nat. rewrite H2.
    cbn [outcome after]. split; [reflexivity|].
    now rewrite exchanges_app, exchanges_rounds.
  - intros fuel Hne.
    destruct (session_inv stringify parse node (constructor options)
                fuel txHash retryInterval w) as (k & _ & Hx).
    destruct (outcome (waitForTransaction stringify parse node (constructor options)
                         fuel txHash retryInterval w)) as [|v|e].
    + now destruct Hne.
    + destruct Hx as (_ & H1 & Ha & _). destruct k as [|k]; [lia|].
      exists (rounds stringify (constructor options) k txHash (interval_of retryInterval)
                ++ [Slept (interval_of retryInterval)])%list.
      rewrite Ha. reflexivity.
    + destruct Hx as (H1 & Ha & _). destruct k as [|k]; [lia|].
      exists (rounds stringify (constructor options) k txHash (interval_of retryInterval)).
      rewrite Ha. reflexivity.
Qed.

Lemma zero_retries_session_witness :
  opt_retries {| opt_nodeUrl := "http://localhost:9545"; opt_retries := Some 0 |}
  = Some 0 /\
  retries (constructor {| opt_nodeUrl := "http://localhost:9545";
                          opt_retries := Some 0 |}) = 200 /\
  outcome (waitForTransaction plain_stringify keep (always "ACCEPTED_ON_L1")
             (constructor {| opt_nodeUrl := "http://localhost:9545";
                             opt_retries := Some 0 |})
             1 "0x1" None [])
  = Returned VUndefined.
Proof.
  split; [reflexivity|].
  destruct (zero_retries_session plain_stringify keep (always "ACCEPTED_ON_L1")
              {| opt_nodeUrl := "http://localhost:9545"; opt_retries := Some 0 |}
              "0x1" None [] eq_refl) as (Hr & Hs & _).
  split; [exact Hr|].
  exact (proj1 (Hs O (receipt "ACCEPTED_ON_L1") eq_refl (conj eq_refl eq_refl))).
Defined.

(** C3, as the specification has it, fails on a provider built with
    [retries: 0]: when the node answers PENDING the session returns
    normally and reports no exhaustion, whatever the number of passes
    allowed; and when the single attempt fails the session is not
    exhausted either, it goes on polling. *)
Lemma zero_retries_option_is_not_exhausted_after_one_attempt :
  outcome (waitForTransaction plain_stringify keep (always "PENDING")
             (constructor {| opt_nodeUrl := "http://localhost:9545";
                             opt_retries := Some 0 |})
             1 "0x1" None [])
  = Returned VUndefined /\
  ~ (exists fuel : nat,
        outcome (waitForTransaction plain_stringify keep (always "PENDING")
                   (constructor {| opt_nodeUrl := "http://localhost:9545";
                                   opt_retries := Some 0 |})
                   fuel "0x1" None [])
        = Threw timedout) /\
  outcome (waitForTransaction plain_stringify keep unreachable
             (constructor {| opt_nodeUrl := "http://localhost:9545";
                             opt_retries := Some 0 |})
             1 "0x1" None [])
  = Running.
Proof.
  split; [reflexivity|]. split; [|reflexivity].
  intros [[|fuel] H].
  - discriminate H.
  - rewrite (success_on_first_fetch_aux plain_stringify keep (always "PENDING")
               (constructor {| opt_nodeUrl := "http://localhost:9545";
                               opt_retries := Some 0 |})
               "0x1" None [] fuel (receipt "PENDING")
               eq_refl (conj eq_refl eq_refl)) in H.
    discriminate H.
Qed.
